(** * Plum ecoMAX integration for Home Assistant: a shallow embedding

    The development follows the layout of the Python package
    [custom_components/plum_ecomax]:

    - [Py]       : the fragment of Python the sources rely on (exceptions,
                   insertion-ordered dictionaries, logging records, the
                   [datetime] formatting used by the schedule service);
    - [Climate]  : [climate.py], the thermostat climate entity;
    - [Number]   : [number.py], the number entities;
    - [Services] : [services.py], the four registered services;
    - [ClimateEntity], [Extraction], [ServicesSpec] : the remaining
                   callbacks of the climate entity, the devices a service
                   call selects, and loop-free accounts of the services.

    Definitions come first; the properties proved about them follow in the
    second half of the file. *)

From Stdlib Require Import ZArith Ascii String.
From stdpp Require Import base list strings gmap.

Local Open Scope Z_scope.

(* ===================================================================== *)
(** ** Python fragment                                                    *)
(* ===================================================================== *)

Module Py.

(** Exceptions that cross the code under study. [ValueError] and
    [HomeAssistantError] carry their message. *)
Inductive exn : Type :=
  | ParameterNotFoundError
  | TimeoutError
  | ValueError (msg : string)
  | KeyError
  | AttributeError
  | HomeAssistantError (msg : string).

(** The outcome of a call: a returned value or a raised exception. *)
Inductive result (A : Type) : Type :=
  | Ok (a : A)
  | Raise (e : exn).
Arguments Ok {A} a.
Arguments Raise {A} e.

(** Records handed to [_LOGGER]: the format string is kept apart from its
    arguments, as [logging] does. *)
Inductive log_level : Type := ERROR | EXCEPTION.

Inductive log_arg : Type :=
  | ArgInt (z : Z)
  | ArgStr (s : string).

Record log_record : Type := LogRecord {
  level : log_level;
  fmt : string;
  args : list log_arg
}.

(** *** Stateful, fallible computations

    A computation runs on a state [S], returns or raises, and leaves a
    state behind in both cases: what was written before an exception was
    raised stays written. *)
Definition M (S A : Type) : Type := S -> result A * S.

Definition ret {S A} (a : A) : M S A := fun s => (Ok a, s).

Definition bind {S A B} (c : M S A) (k : A -> M S B) : M S B :=
  fun s =>
    match c s with
    | (Ok a, s') => k a s'
    | (Raise e, s') => (Raise e, s')
    end.

Definition raise {S A} (e : exn) : M S A := fun s => (Raise e, s).

(** [try: body except: handler]; the handler re-raises what it does not
    catch. *)
Definition try_except {S A} (body : M S A) (handler : exn -> M S A) : M S A :=
  fun s =>
    match body s with
    | (Ok a, s') => (Ok a, s')
    | (Raise e, s') => handler e s'
    end.

(** An [await] on the device library: its outcome, with no effect on the
    state of this integration. *)
Definition await {S A} (r : result A) : M S A := fun s => (r, s).

Definition gets {S A} (f : S -> A) : M S A := fun s => (Ok (f s), s).

Definition modify {S} (f : S -> S) : M S unit := fun s => (Ok tt, f s).

(** *** Dictionaries

    A [dict] keeps its items in insertion order. Storing under a key that
    is present replaces the value where it stands; a new key goes last. *)
Section Dict.
Context {K V : Type} `{EqDecision K}.

Definition dict : Type := list (K * V).

Fixpoint dict_get (k : K) (d : dict) : option V :=
  match d with
  | [] => None
  | (k', v) :: d' => if decide (k = k') then Some v else dict_get k d'
  end.

Fixpoint dict_set (k : K) (v : V) (d : dict) : dict :=
  match d with
  | [] => [(k, v)]
  | (k', v') :: d' =>
      if decide (k = k') then (k', v) :: d' else (k', v') :: dict_set k v d'
  end.

Definition dict_contains (k : K) (d : dict) : bool :=
  match dict_get k d with Some _ => true | None => false end.

Definition dict_items (d : dict) : list (K * V) := d.

Definition dict_keys (d : dict) : list K := d.*1.

(** A display [{k1: v1, ..., kn: vn}] or a comprehension over the same
    pairs: the items are stored one after the other. *)
Definition dict_of_items (items : list (K * V)) : dict :=
  fold_left (fun d kv => dict_set kv.1 kv.2 d) items [].

(** [d[k]] *)
Definition dict_subscript (k : K) (d : dict) : result V :=
  match dict_get k d with
  | Some v => Ok v
  | None => Raise KeyError
  end.

(** Truth value of a dictionary: empty is false. *)
Definition dict_truthy (d : dict) : bool :=
  match d with [] => false | _ => true end.
End Dict.
Arguments dict : clear implicits.

(** *** Strings *)

(** [s[:-3]]: all but the last three characters. *)
Definition drop_last3 (s : string) : string :=
  String.substring 0 (String.length s - 3) s.

Definition lower_ascii (c : ascii) : ascii :=
  let n := nat_of_ascii c in
  if (65 <=? n)%nat && (n <=? 90)%nat then ascii_of_nat (n + 32) else c.

(** [s.lower()] on ASCII text. *)
Fixpoint lower (s : string) : string :=
  match s with
  | EmptyString => EmptyString
  | String c s' => String (lower_ascii c) (lower s')
  end.

(** *** [datetime]

    The schedule service parses one time of day, adds half hours to it and
    prints the time of day of the sum. [strptime] leaves the date at
    1900-01-01, so a [datetime] is a number of minutes since the midnight
    that starts that day. The directives are [%H] and [%M]; the calendar
    limit of [datetime] (year 9999) is not modelled. *)
Definition datetime : Type := Z.

Definition hour (t : datetime) : Z := (t `div` 60) `mod` 24.
Definition minute (t : datetime) : Z := t `mod` 60.

(** [t + timedelta(minutes=n)] *)
Definition add_minutes (t : datetime) (n : Z) : datetime := t + n.

Definition digit (d : Z) : ascii := ascii_of_nat (48 + Z.to_nat d).

Definition two_digits (n : Z) : string :=
  String (digit (n `div` 10)) (String (digit (n `mod` 10)) EmptyString).

Fixpoint strftime (t : datetime) (format : string) : string :=
  match format with
  | EmptyString => EmptyString
  | String "%" (String "H" rest) => two_digits (hour t) +:+ strftime t rest
  | String "%" (String "M" rest) => two_digits (minute t) +:+ strftime t rest
  | String c rest => String c (strftime t rest)
  end.

Definition digit_value (c : ascii) : option Z :=
  let n := nat_of_ascii c in
  if (48 <=? n)%nat && (n <=? 57)%nat then Some (Z.of_nat (n - 48)) else None.

(** A field of one or two digits below [bound]: two digits are taken when
    they fit. *)
Definition read_field (bound : Z) (s : string) : option (Z * string) :=
  match s with
  | String a (String b rest) =>
      match digit_value a, digit_value b with
      | Some x, Some y =>
          if 10 * x + y <? bound then Some (10 * x + y, rest)
          else Some (x, String b rest)
      | Some x, None => Some (x, String b rest)
      | None, _ => None
      end
  | String a EmptyString =>
      match digit_value a with
      | Some x => Some (x, EmptyString)
      | None => None
      end
  | EmptyString => None
  end.

(** [strptime] folds the format over the text and collects the hour and
    the minute; text that does not match raises [ValueError]. *)
Fixpoint strptime_fields (format s : string) (h m : Z) : option (Z * Z) :=
  match format with
  | EmptyString => match s with EmptyString => Some (h, m) | _ => None end
  | String "%" (String "H" rest) =>
      match read_field 24 s with
      | Some (h', s') => strptime_fields rest s' h' m
      | None => None
      end
  | String "%" (String "M" rest) =>
      match read_field 60 s with
      | Some (m', s') => strptime_fields rest s' h m'
      | None => None
      end
  | String c rest =>
      match s with
      | String c' s' =>
          if decide (c = c') then strptime_fields rest s' h m else None
      | EmptyString => None
      end
  end.

Definition strptime (s format : string) : result datetime :=
  match strptime_fields format s 0 0 with
  | Some (h, m) => Ok (60 * h + m)
  | None => Raise (ValueError "time data does not match format")
  end.

End Py.

Module PyNotations.
Notation "x <- c ;; k" := (Py.bind c (fun x => k))
    (at level 100, c at level 99, k at level 200, right associativity).
Notation "c ;;; k" := (Py.bind c (fun _ => k))
    (at level 100, k at level 200, right associativity).
End PyNotations.

(* ===================================================================== *)
(** ** climate.py                                                         *)
(* ===================================================================== *)

Module Climate.
Import Py PyNotations.

(** Modelled from the spec: the three preset names imported from
    [homeassistant.components.climate], which the glossary lists among the
    operating modes as eco, comfort and away. *)
Definition PRESET_AWAY : string := "away".
Definition PRESET_COMFORT : string := "comfort".
Definition PRESET_ECO : string := "eco".

Definition PRESET_SCHEDULE : string := "schedule".
Definition PRESET_AIRING : string := "airing".
Definition PRESET_PARTY : string := "party".
Definition PRESET_HOLIDAYS : string := "holidays".
Definition PRESET_ANTIFREEZE : string := "antifreeze".
Definition PRESET_UNKNOWN : string := "unknown".

Definition EM_TO_HA_MODE : dict Z string :=
  dict_of_items
    [ (0, PRESET_SCHEDULE);
      (1, PRESET_ECO);
      (2, PRESET_COMFORT);
      (3, PRESET_AWAY);
      (4, PRESET_AIRING);
      (5, PRESET_PARTY);
      (6, PRESET_HOLIDAYS);
      (7, PRESET_ANTIFREEZE) ].

(** [{v: k for k, v in EM_TO_HA_MODE.items()}] *)
Definition HA_TO_EM_MODE : dict string Z :=
  dict_of_items ((fun kv => (kv.2, kv.1)) <$> dict_items EM_TO_HA_MODE).

Definition HA_PRESET_TO_EM_TEMP : dict string string :=
  dict_of_items
    [ (PRESET_ECO, "night_target_temp");
      (PRESET_COMFORT, "day_target_temp");
      (PRESET_AWAY, "night_target_temp");
      (PRESET_PARTY, "party_target_temp");
      (PRESET_HOLIDAYS, "holidays_target_temp");
      (PRESET_ANTIFREEZE, "antifreeze_target_temp") ]%string.

Definition CLIMATE_MODES : list string :=
  [ PRESET_SCHEDULE;
    PRESET_ECO;
    PRESET_COMFORT;
    PRESET_AWAY;
    PRESET_AIRING;
    PRESET_PARTY;
    PRESET_HOLIDAYS;
    PRESET_ANTIFREEZE ].

(** [ThermostatClimate._attr_preset_modes] *)
Definition _attr_preset_modes : list string := CLIMATE_MODES.

Section Thermostat.
(** Temperatures and parameter values are Python numbers. Only their
    [==] test and [int()] matter here; [!=] is the negation of [==], as
    it is for [float] and [int]. Nothing is assumed of [==] itself, so
    that a NaN, which differs from itself, is covered. *)
Variable V : Type.
Variable py_eq : V -> V -> bool.
Variable py_int : V -> result Z.

Definition py_ne (a b : V) : bool := negb (py_eq a b).

Record ThermostatParameter : Type := {
  value : V;
  min_value : V;
  max_value : V
}.

(** The thermostat of the device library, as the entity reads it:
    [device.get] gives a number for the [target_temp] sensor and a
    [ThermostatParameter] for a parameter name, following the annotations
    at its call sites; either may raise. *)
Record Thermostat : Type := {
  get_sensor : string -> result V;
  get_parameter : string -> result ThermostatParameter
}.

(** The attributes of [ThermostatClimate] the code below reads or
    writes. *)
Record Attrs : Type := {
  _attr_preset_mode : option string;
  _attr_target_temperature_name : option string;
  _attr_max_temp : option V;
  _attr_min_temp : option V
}.

(** What the entity can observe and change: its attributes, the log, and
    the number of calls to [async_write_ha_state]. *)
Record World : Type := {
  attrs : Attrs;
  log : list log_record;
  ha_state_writes : nat
}.

Definition set_preset_mode (p : string) (w : World) : World :=
  {| attrs := {| _attr_preset_mode := Some p;
                 _attr_target_temperature_name :=
                   _attr_target_temperature_name (attrs w);
                 _attr_max_temp := _attr_max_temp (attrs w);
                 _attr_min_temp := _attr_min_temp (attrs w) |};
     log := log w;
     ha_state_writes := ha_state_writes w |}.

Definition set_target_temperature_attributes
    (name : string) (p : ThermostatParameter) (w : World) : World :=
  {| attrs := {| _attr_preset_mode := _attr_preset_mode (attrs w);
                 _attr_target_temperature_name := Some name;
                 _attr_max_temp := Some (max_value p);
                 _attr_min_temp := Some (min_value p) |};
     log := log w;
     ha_state_writes := ha_state_writes w |}.

Definition logger_error (f : string) (a : list log_arg) (w : World) : World :=
  {| attrs := attrs w;
     log := log w ++ [LogRecord ERROR f a];
     ha_state_writes := ha_state_writes w |}.

Definition async_write_ha_state : M World unit :=
  modify (fun w => {| attrs := attrs w;
                      log := log w;
                      ha_state_writes := S (ha_state_writes w) |}).

Variable device : Thermostat.

Definition _async_get_current_schedule_preset
    (target_temp : option V) : M World string :=
  target_temp <- match target_temp with
                 | None => await (get_sensor device "target_temp")
                 | Some t => ret t
                 end ;;
  name_comfort <- await (dict_subscript PRESET_COMFORT HA_PRESET_TO_EM_TEMP) ;;
  comfort_temp <- await (get_parameter device name_comfort) ;;
  name_eco <- await (dict_subscript PRESET_ECO HA_PRESET_TO_EM_TEMP) ;;
  eco_temp <- await (get_parameter device name_eco) ;;
  let schedule_preset := PRESET_UNKNOWN in
  let schedule_preset :=
    if py_eq target_temp (value comfort_temp)
       && py_ne target_temp (value eco_temp)
    then PRESET_COMFORT else schedule_preset in
  let schedule_preset :=
    if py_eq target_temp (value eco_temp)
       && py_ne target_temp (value comfort_temp)
    then PRESET_ECO else schedule_preset in
  ret schedule_preset.

(** [preset_mode in (PRESET_AIRING, PRESET_UNKNOWN)]; a preset that was
    never set is [None] and is in neither. *)
Definition is_airing_or_unknown (preset_mode : option string) : bool :=
  match preset_mode with
  | Some p => bool_decide (p = PRESET_AIRING) || bool_decide (p = PRESET_UNKNOWN)
  | None => false
  end.

Definition _async_update_target_temperature_attributes
    (target_temp : option V) : M World unit :=
  preset_mode <- gets (fun w => _attr_preset_mode (attrs w)) ;;
  preset_mode <- (if bool_decide (preset_mode = Some PRESET_SCHEDULE)
                  then p <- _async_get_current_schedule_preset target_temp ;;
                       ret (Some p)
                  else ret preset_mode) ;;
  if is_airing_or_unknown preset_mode then ret tt
  else
    target_temperature_name <-
      match preset_mode with
      | Some p => await (dict_subscript p HA_PRESET_TO_EM_TEMP)
      | None => raise KeyError
      end ;;
    current_name <- gets (fun w => _attr_target_temperature_name (attrs w)) ;;
    if bool_decide (current_name = Some target_temperature_name) then ret tt
    else
      target_temperature_parameter <-
        await (get_parameter device target_temperature_name) ;;
      modify (set_target_temperature_attributes
                target_temperature_name target_temperature_parameter).

(** The argument of [async_update_preset_mode]: an [int] or a
    [ThermostatParameter]. *)
Inductive mode_arg : Type :=
  | ModeInt (mode : Z)
  | ModeParameter (mode : ThermostatParameter).

Definition async_update_preset_mode (mode : mode_arg) : M World unit :=
  mode <- match mode with
          | ModeParameter p => await (py_int (value p))
          | ModeInt z => ret z
          end ;;
  match dict_get mode EM_TO_HA_MODE with
  | None =>
      modify (logger_error "Unknown climate preset %d." [ArgInt mode])
  | Some preset_mode =>
      modify (set_preset_mode preset_mode) ;;;
      _async_update_target_temperature_attributes None ;;;
      async_write_ha_state
  end.
End Thermostat.

End Climate.

(* ===================================================================== *)
(** ** number.py                                                          *)
(* ===================================================================== *)

Module Number.

(** A device attribute as the number entity reads it: [attr.value],
    [attr.min_] and [attr.max_]. *)
Record Attribute : Type := {
  attr_value : Z;
  attr_min_ : Z;
  attr_max_ : Z
}.

Record EcomaxNumber : Type := {
  _id : string
}.

Section EcomaxNumber.
(** [get_attribute] is inherited from [EcomaxEntity]; it gives [None]
    for an attribute the device does not have. *)
Variable get_attribute : EcomaxNumber -> string -> option Attribute.

Definition value (self : EcomaxNumber) : Z :=
  match get_attribute self (_id self) with
  | Some attr => attr_value attr
  | None => 0
  end.

Definition min_value (self : EcomaxNumber) : Z :=
  match get_attribute self (_id self) with
  | Some attr => attr_min_ attr
  | None => 0
  end.

Definition max_value (self : EcomaxNumber) : Z :=
  match get_attribute self (_id self) with
  | Some attr => attr_max_ attr
  | None => 0
  end.
End EcomaxNumber.

End Number.

(* ===================================================================== *)
(** ** services.py                                                        *)
(* ===================================================================== *)

Module Services.
Import Py PyNotations.

Definition logger_exception (f : string) (a : list log_arg)
    (l : list log_record) : list log_record :=
  l ++ [LogRecord EXCEPTION f a].

(** *** Devices of the device library *)

(** The product information stored under [ATTR_PRODUCT]. *)
Record Product : Type := {
  uid : string
}.

(** What [get_nowait(ATTR_PRODUCT, default="unknown")] gives: the product
    information, or the default, which is a [str]. *)
Inductive product_or_default : Type :=
  | ProductInfo (p : Product)
  | Default (s : string).

(** [product.uid]: a [str] has no such attribute. *)
Definition getattr_uid (product : product_or_default) : result string :=
  match product with
  | ProductInfo p => Ok (uid p)
  | Default _ => Raise AttributeError
  end.

Section ParameterServices.
(** [V]: the numbers a parameter holds; [SV]: what the [value] field of a
    [set_parameter] call may hold. *)
Variables V SV : Type.

(** A parameter of the device library. *)
Record Param : Type := {
  value : V;
  min_value : V;
  max_value : V
}.

(** A device as the services see it. [parent] and [index] are attributes
    that only sub-devices (mixers, thermostats) have: [None] stands for
    [hasattr] being false. *)
#[warnings="-register-all"] Inductive Device : Type := mkDevice {
  class_name : string;
  parent : option Device;
  data_product : option Product;
  index : option Z;
  device_get : string -> result Param;
  device_set : string -> SV -> result bool
}.

Definition get_nowait_product (d : Device) : product_or_default :=
  match data_product d with
  | Some p => ProductInfo p
  | None => Default "unknown"
  end.

(** Values stored in a parameter record. *)
Inductive pyval : Type :=
  | PyStr (s : string)
  | PyInt (z : Z)
  | PyNum (v : V).

(** *** get_parameter *)

(** The product a device belongs to: that of its parent when it has one,
    its own otherwise. *)
Definition product_of (device : Device) : product_or_default :=
  match parent device with
  | Some p => get_nowait_product p
  | None => get_nowait_product device
  end.

(** One turn of the loop over the selected devices. *)
Definition get_parameter_for
    (name : string) (parameters : list (dict string pyval))
    (device : Device) : M (list log_record) (list (dict string pyval)) :=
  let product := product_of device in
  try_except
    (parameter <- await (device_get device name) ;;
     device_uid <- await (getattr_uid product) ;;
     let data :=
       dict_of_items
         [ ("name", PyStr name);
           ("value", PyNum (value parameter));
           ("min_value", PyNum (min_value parameter));
           ("max_value", PyNum (max_value parameter));
           ("device_type", PyStr (lower (class_name device)));
           ("device_uid", PyStr device_uid) ]%string in
     let data :=
       match index device with
       | Some i => dict_set "device_index"%string (PyInt (i + 1)) data
       | None => data
       end in
     ret (parameters ++ [data]))
    (fun e =>
       match e with
       | ParameterNotFoundError | TimeoutError =>
           modify (logger_exception "Requested parameter %s not found"
                                    [ArgStr name]) ;;;
           ret parameters
       | _ => raise e
       end).

Fixpoint get_parameter_loop
    (name : string) (devices : list Device)
    (parameters : list (dict string pyval))
    : M (list log_record) (list (dict string pyval)) :=
  match devices with
  | [] => ret parameters
  | device :: devices' =>
      parameters' <- get_parameter_for name parameters device ;;
      get_parameter_loop name devices' parameters'
  end.

(** [any(parameters)] *)
Definition any_dict (parameters : list (dict string pyval)) : bool :=
  existsb dict_truthy parameters.

(** The service, given the parameter name of the call and the devices
    the call selects, in the order the loop visits them. *)
Definition async_get_parameter_service
    (name : string) (devices : list Device)
    : M (list log_record) (string * list (dict string pyval)) :=
  parameters <- get_parameter_loop name devices [] ;;
  if negb (any_dict parameters)
  then raise (HomeAssistantError
                ("Couldn't get " +:+ name
                 +:+ " parameter, check logs for more info"))
  else ret ("parameters"%string, parameters).

(** *** set_parameter *)

Definition set_parameter_for
    (name : string) (value : SV) (results : gset bool)
    (device : Device) : M (list log_record) (gset bool) :=
  try_except
    (r <- await (device_set device name value) ;;
     ret ({[ r ]} ∪ results))
    (fun e =>
       match e with
       | ParameterNotFoundError | TimeoutError =>
           modify (logger_exception "Requested parameter %s not found"
                                    [ArgStr name]) ;;;
           ret results
       | ValueError msg =>
           raise (HomeAssistantError ("Couldn't set parameter: " +:+ msg))
       | _ => raise e
       end).

Fixpoint set_parameter_loop
    (name : string) (value : SV) (devices : list Device)
    (results : gset bool) : M (list log_record) (gset bool) :=
  match devices with
  | [] => ret results
  | device :: devices' =>
      results' <- set_parameter_for name value results device ;;
      set_parameter_loop name value devices' results'
  end.

(** [any(results)] on a set of [bool]. *)
Definition any_bool (results : gset bool) : bool :=
  bool_decide (true ∈ results).

Definition async_set_parameter_service
    (name : string) (value : SV) (devices : list Device)
    : M (list log_record) unit :=
  results <- set_parameter_loop name value devices ∅ ;;
  if negb (any_bool results)
  then raise (HomeAssistantError
                ("Couldn't set parameter '" +:+ name
                 +:+ "', please check logs for more info"))
  else ret tt.

(** *** What a device did when asked

    [device.get] raised one of the two exceptions the service catches, or
    returned a parameter. *)
Definition get_caught (name : string) (device : Device) : Prop :=
  device_get device name = Raise ParameterNotFoundError
  \/ device_get device name = Raise TimeoutError.

Definition get_retrieved (name : string) (device : Device) : Prop :=
  exists parameter : Param, device_get device name = Ok parameter.

(** The product of the device is known. *)
Definition product_known (device : Device) : Prop :=
  exists p : Product, product_of device = ProductInfo p.

(** [device.set] raised one of the two exceptions the service catches. *)
Definition set_caught (name : string) (value : SV) (device : Device) : Prop :=
  device_set device name value = Raise ParameterNotFoundError
  \/ device_set device name value = Raise TimeoutError.

(** [device.set] returned, or raised what the service catches: the loop
    goes on to the next device. *)
Definition set_passed (name : string) (value : SV) (device : Device) : Prop :=
  (exists r : bool, device_set device name value = Ok r)
  \/ set_caught name value device.

(** [device.set] returned a true result. *)
Definition set_succeeded (name : string) (value : SV) (device : Device)
    : Prop :=
  device_set device name value = Ok true.
End ParameterServices.

Arguments value {V}.
Arguments min_value {V}.
Arguments max_value {V}.
Arguments class_name {V SV}.
Arguments parent {V SV}.
Arguments data_product {V SV}.
Arguments index {V SV}.
Arguments device_get {V SV}.
Arguments device_set {V SV}.
Arguments PyStr {V}.
Arguments PyInt {V}.
Arguments PyNum {V}.

(** *** Schedules *)

(** A schedule of the device library: one interval array per weekday. *)
Record Schedule : Type := {
  monday : list bool;
  tuesday : list bool;
  wednesday : list bool;
  thursday : list bool;
  friday : list bool;
  saturday : list bool;
  sunday : list bool
}.

(** [getattr(schedule, weekday)] *)
Definition getattr_weekday (schedule : Schedule) (weekday : string)
    : result (list bool) :=
  if decide (weekday = "monday") then Ok (monday schedule)
  else if decide (weekday = "tuesday") then Ok (tuesday schedule)
  else if decide (weekday = "wednesday") then Ok (wednesday schedule)
  else if decide (weekday = "thursday") then Ok (thursday schedule)
  else if decide (weekday = "friday") then Ok (friday schedule)
  else if decide (weekday = "saturday") then Ok (saturday schedule)
  else if decide (weekday = "sunday") then Ok (sunday schedule)
  else Raise AttributeError.

(** The schedule day is an object shared with its schedule: a change made
    through the day is seen in the schedule. [with_weekday] is the schedule
    after its day [weekday] has become [day]. *)
Definition with_weekday (schedule : Schedule) (weekday : string)
    (day : list bool) : Schedule :=
  {| monday := if decide (weekday = "monday") then day else monday schedule;
     tuesday := if decide (weekday = "tuesday") then day else tuesday schedule;
     wednesday :=
       if decide (weekday = "wednesday") then day else wednesday schedule;
     thursday :=
       if decide (weekday = "thursday") then day else thursday schedule;
     friday := if decide (weekday = "friday") then day else friday schedule;
     saturday :=
       if decide (weekday = "saturday") then day else saturday schedule;
     sunday := if decide (weekday = "sunday") then day else sunday schedule |}.

(** The state the schedule services work on: the [schedules] entry of the
    device data ([None] when the device has none) and the schedules sent to
    the device by [commit], oldest first. *)
Record Connection : Type := {
  data_schedules : option (dict string Schedule);
  committed : list (string * Schedule)
}.

(** [connection.device.get_nowait(ATTR_SCHEDULES, {})] *)
Definition get_nowait_schedules (c : Connection) : dict string Schedule :=
  match data_schedules c with
  | Some schedules => schedules
  | None => []
  end.

Definition store_weekday (schedule_type weekday : string) (day : list bool)
    (c : Connection) : Connection :=
  {| data_schedules :=
       match data_schedules c with
       | Some schedules =>
           match dict_get schedule_type schedules with
           | Some schedule =>
               Some (dict_set schedule_type
                       (with_weekday schedule weekday day) schedules)
           | None => Some schedules
           end
       | None => None
       end;
     committed := committed c |}.

(** [schedule.commit()]: the schedule, as it stands, goes to the device. *)
Definition commit (schedule_type : string) : M Connection unit :=
  fun c =>
    match dict_get schedule_type (get_nowait_schedules c) with
    | Some schedule =>
        (Ok tt, {| data_schedules := data_schedules c;
                   committed := committed c ++ [(schedule_type, schedule)] |})
    | None => (Raise KeyError, c)
    end.

Section ScheduleServices.
(** What the device library and the host framework supply: the state
    names, the start of day and the time format of the schedule helpers,
    and [ScheduleDay.set_state]. The latter takes the interval array of the
    day, the state and the bounds of the time interval; it returns or
    raises, and gives the array it leaves behind in both cases. *)
Variables STATE_ON STATE_OFF START_OF_DAY TIME_FORMAT : string.
Variable set_state :
  list bool -> string -> string -> string -> result unit * list bool.

(** [{key(index): value for index, value in enumerate(intervals)}] *)
Definition intervals_dict (start_of_day_dt : datetime)
    (intervals : list bool) : dict string bool :=
  dict_of_items
    (imap (fun index value =>
             (strftime (add_minutes start_of_day_dt (30 * Z.of_nat index))
                       TIME_FORMAT,
              value))
          intervals).

Definition async_get_schedule_service (schedule_type weekday : string)
    : M Connection (string * dict string bool) :=
  schedules <- gets get_nowait_schedules ;;
  if dict_contains schedule_type schedules then
    schedule <- await (dict_subscript schedule_type schedules) ;;
    schedule_day <- await (getattr_weekday schedule weekday) ;;
    start_of_day_dt <- await (strptime START_OF_DAY TIME_FORMAT) ;;
    let intervals := intervals_dict start_of_day_dt schedule_day in
    ret ("schedule"%string, intervals)
  else
    raise (HomeAssistantError
             (schedule_type
              +:+ " schedule is not supported by the device, check logs for more info")).

(** [schedule_day.set_state(...)] on the day [weekday] of the schedule
    [schedule_type]. *)
Definition call_set_state (schedule_type weekday : string)
    (schedule_day : list bool) (state start_time end_time : string)
    : M Connection unit :=
  fun c =>
    let '(r, day') := set_state schedule_day state start_time end_time in
    (r, store_weekday schedule_type weekday day' c).

Definition async_set_schedule_service
    (schedule_type weekday : string) (state : bool)
    (start_time end_time : string) : M Connection unit :=
  schedules <- gets get_nowait_schedules ;;
  if dict_contains schedule_type schedules then
    schedule <- await (dict_subscript schedule_type schedules) ;;
    schedule_day <- await (getattr_weekday schedule weekday) ;;
    try_except
      (call_set_state schedule_type weekday schedule_day
         (if state then STATE_ON else STATE_OFF)
         (drop_last3 start_time) (drop_last3 end_time))
      (fun e =>
         match e with
         | ValueError _ =>
             raise (HomeAssistantError
                      ("Error while trying to parse time interval for "
                       +:+ schedule_type +:+ " schedule"))
         | _ => raise e
         end) ;;;
    commit schedule_type
  else
    raise (HomeAssistantError
             (schedule_type
              +:+ " schedule is not supported by the device, check logs for more info")).
End ScheduleServices.

(** The start of day and the time format of [pyplumio.helpers.schedule]:
    times of day are written as hours and minutes, which is also what the
    [set_schedule] service hands over once it has cut the seconds off its
    [%H:%M:%S] arguments. *)
Definition pyplumio_START_OF_DAY : string := "00:00".
Definition pyplumio_TIME_FORMAT : string := "%H:%M".

End Services.

(* ===================================================================== *)
(** ** climate.py: the remaining callbacks                                *)
(* ===================================================================== *)

Module ClimateEntity.
Import Py PyNotations Climate.

(** [HVACAction], as far as the entity uses it. *)
Inductive HVACAction : Type := HEATING | IDLE.

Section Entity.
Variable V : Type.
Variable py_eq : V -> V -> bool.
Variable device : Thermostat V.
(** [homeassistant.const.ATTR_MODE], the name under which the mode is sent
    to the device. *)
Variable ATTR_MODE : string.

(** What goes to the device through [set_nowait]: a mode code or a
    number. *)
Inductive sent_value : Type :=
  | SentInt (z : Z)
  | SentNum (v : V).

(** The entity with the attributes the other callbacks write, and the
    calls made to [device.set_nowait], oldest first. *)
Record Entity : Type := {
  world : World V;
  _attr_target_temperature : option V;
  _attr_current_temperature : option V;
  _attr_hvac_action : option HVACAction;
  set_nowait_calls : list (string * sent_value)
}.

(** A computation on the preset attributes, run inside the entity. *)
Definition zoom {A : Type} (c : M (World V) A) : M Entity A :=
  fun e =>
    let '(r, w') := c (world e) in
    (r, {| world := w';
           _attr_target_temperature := _attr_target_temperature e;
           _attr_current_temperature := _attr_current_temperature e;
           _attr_hvac_action := _attr_hvac_action e;
           set_nowait_calls := set_nowait_calls e |}).

(** The entity with other preset attributes. *)
Definition with_world (w : World V) (e : Entity) : Entity :=
  {| world := w;
     _attr_target_temperature := _attr_target_temperature e;
     _attr_current_temperature := _attr_current_temperature e;
     _attr_hvac_action := _attr_hvac_action e;
     set_nowait_calls := set_nowait_calls e |}.

(** The entity after [set_nowait(name, value)]. *)
Definition with_call (name : string) (value : sent_value) (e : Entity)
    : Entity :=
  {| world := world e;
     _attr_target_temperature := _attr_target_temperature e;
     _attr_current_temperature := _attr_current_temperature e;
     _attr_hvac_action := _attr_hvac_action e;
     set_nowait_calls := set_nowait_calls e ++ [(name, value)] |}.

(** [self.device.set_nowait(name, value)] *)
Definition set_nowait (name : string) (value : sent_value) : M Entity unit :=
  modify (fun e =>
            {| world := world e;
               _attr_target_temperature := _attr_target_temperature e;
               _attr_current_temperature := _attr_current_temperature e;
               _attr_hvac_action := _attr_hvac_action e;
               set_nowait_calls := set_nowait_calls e ++ [(name, value)] |}).

Definition set_target_temperature (value : V) (e : Entity) : Entity :=
  {| world := world e;
     _attr_target_temperature := Some value;
     _attr_current_temperature := _attr_current_temperature e;
     _attr_hvac_action := _attr_hvac_action e;
     set_nowait_calls := set_nowait_calls e |}.

Definition set_current_temperature (value : V) (e : Entity) : Entity :=
  {| world := world e;
     _attr_target_temperature := _attr_target_temperature e;
     _attr_current_temperature := Some value;
     _attr_hvac_action := _attr_hvac_action e;
     set_nowait_calls := set_nowait_calls e |}.

Definition set_hvac_action (action : HVACAction) (e : Entity) : Entity :=
  {| world := world e;
     _attr_target_temperature := _attr_target_temperature e;
     _attr_current_temperature := _attr_current_temperature e;
     _attr_hvac_action := Some action;
     set_nowait_calls := set_nowait_calls e |}.

Definition async_set_preset_mode (preset_mode : string) : M Entity unit :=
  mode <- await (dict_subscript preset_mode HA_TO_EM_MODE) ;;
  set_nowait ATTR_MODE (SentInt mode) ;;;
  zoom (modify (set_preset_mode V preset_mode)) ;;;
  zoom (_async_update_target_temperature_attributes V py_eq device None) ;;;
  zoom (async_write_ha_state V).

Definition async_update (value : V) : M Entity unit :=
  modify (set_current_temperature value) ;;;
  zoom (async_write_ha_state V).

Definition async_update_target_temperature (value : V) : M Entity unit :=
  modify (set_target_temperature value) ;;;
  zoom (_async_update_target_temperature_attributes V py_eq device
          (Some value)) ;;;
  zoom (async_write_ha_state V).

Definition async_update_hvac_action (value : bool) : M Entity unit :=
  modify (set_hvac_action (if value then HEATING else IDLE)) ;;;
  zoom (async_write_ha_state V).

(** *** Reading the preset attributes

    The entity after [async_write_ha_state]. *)
Definition written (w : World V) : World V :=
  {| attrs := attrs V w;
     log := log V w;
     ha_state_writes := S (ha_state_writes V w) |}.

(** The target temperature parameter becomes [name], with the bounds of
    [parameter], unless it is [name] already: then nothing is read from the
    parameter. *)
Definition retarget (name : string) (parameter : ThermostatParameter V)
    (w : World V) : World V :=
  if bool_decide (_attr_target_temperature_name V (attrs V w) = Some name)
  then w
  else set_target_temperature_attributes V name parameter w.

(** What [_async_update_target_temperature_attributes] does from its
    second [if] on, once the preset of the schedule mode is settled. *)
Definition finish_update (preset_mode : option string) : M (World V) unit :=
  if is_airing_or_unknown preset_mode then ret tt
  else
    target_temperature_name <-
      match preset_mode with
      | Some p => await (dict_subscript p HA_PRESET_TO_EM_TEMP)
      | None => raise KeyError
      end ;;
    current_name <-
      gets (fun w => _attr_target_temperature_name V (attrs V w)) ;;
    if bool_decide (current_name = Some target_temperature_name) then ret tt
    else
      target_temperature_parameter <-
        await (get_parameter V device target_temperature_name) ;;
      modify (set_target_temperature_attributes V
                target_temperature_name target_temperature_parameter).

(** The bounds the entity shows are those of the parameter it names as
    its target, and that parameter is one of [HA_PRESET_TO_EM_TEMP]. *)
Definition bounds_belong_to_target (w : World V) : Prop :=
  match _attr_target_temperature_name V (attrs V w) with
  | None => True
  | Some name =>
      (exists preset : string,
         dict_get preset HA_PRESET_TO_EM_TEMP = Some name)
      /\ exists parameter : ThermostatParameter V,
           get_parameter V device name = Ok parameter
           /\ _attr_max_temp V (attrs V w) = Some (max_value V parameter)
           /\ _attr_min_temp V (attrs V w) = Some (min_value V parameter)
  end.
End Entity.

Arguments SentInt {V}.
Arguments SentNum {V}.

End ClimateEntity.

(* ===================================================================== *)
(** ** services.py: the devices a service call selects                    *)
(* ===================================================================== *)

Module Extraction.
Import Py.

(** *** Strings *)

(** [needle in s] *)
Fixpoint contains (needle s : string) : bool :=
  String.prefix needle s
  || match s with
     | EmptyString => false
     | String _ s' => contains needle s'
     end.

(** [s.split(sep, maxsplit)] for a separator of one character: the text
    is cut at the first [maxsplit] separators, from the left. *)
Fixpoint split (sep : ascii) (maxsplit : nat) (s : string) : list string :=
  match s with
  | EmptyString => [EmptyString]
  | String c s' =>
      if decide (c = sep) then
        match maxsplit with
        | O => [s]
        | S m => EmptyString :: split sep m s'
        end
      else
        match split sep maxsplit s' with
        | part :: parts => String c part :: parts
        | [] => [String c EmptyString]
        end
  end.

(** [c in s] for one character. *)
Fixpoint occurs (c : ascii) (s : string) : bool :=
  match s with
  | EmptyString => false
  | String c' s' => bool_decide (c = c') || occurs c s'
  end.

(** [parts.pop()] on the parts of a split, which are never none. *)
Definition pop (parts : list string) : string := List.last parts EmptyString.

(** *** Outcomes

    Beside the exceptions of [Py.exn], indexing an empty list raises
    [IndexError]. *)
Inductive raised : Type :=
  | Exn (e : exn)
  | IndexError.

Inductive outcome (A : Type) : Type :=
  | Returned (a : A)
  | Raised (r : raised).
Arguments Returned {A} a.
Arguments Raised {A} r.

(** *** Registries of the host framework *)

(** A device of the device registry: its identifiers, as [list] gives
    them. *)
Record DeviceEntry : Type := {
  identifiers : list (string * string)
}.

(** An entity of the entity registry: the id of its device, if any. *)
Record RegistryEntry : Type := {
  device_id : option string
}.

(** A device of the connection: the controller, or the mixer stored under
    an index. *)
Inductive target : Type :=
  | Controller
  | Mixer (index : Z).

#[global] Instance target_eq_dec : EqDecision target.
Proof. solve_decision. Defined.

#[global] Instance target_countable : Countable target.
Proof.
  apply (inj_countable'
           (fun t => match t with Controller => None | Mixer i => Some i end)
           (fun o => match o with None => Controller | Some i => Mixer i end)).
  by intros [].
Defined.

(** [f"{device_id}"] *)
Definition format_id (device_id : option string) : string :=
  match device_id with
  | Some s => s
  | None => "None"
  end.

Section Extract.
(** The device registry and the entity registry, the mixers the controller
    has (an empty dictionary when it has none), and [int] on text. *)
Variable device_registry : dict string DeviceEntry.
Variable entity_registry : dict string RegistryEntry.
Variable MixerDevice : Type.
Variable mixers : dict Z MixerDevice.
Variable py_int : string -> result Z.

(** [dr.async_get(device_id)] *)
Definition dr_async_get (device_id : option string) : option DeviceEntry :=
  match device_id with
  | Some s => dict_get s device_registry
  | None => None
  end.

Definition async_extract_target_device (device_id : option string)
    : outcome target :=
  match dr_async_get device_id with
  | None =>
      Raised (Exn (HomeAssistantError
                     ("Selected device '" +:+ format_id device_id
                      +:+ "' was not found, please try again")))
  | Some device =>
      match identifiers device with
      | [] => Raised IndexError
      | (_, identifier) :: _ =>
          if contains "-mixer-" identifier then
            match py_int (pop (split "-" 3 identifier)) with
            | Raise e => Raised (Exn e)
            | Ok index =>
                if dict_contains index mixers then Returned (Mixer index)
                else Returned Controller
            end
          else Returned Controller
      end
  end.

(** The loop of [async_extract_referenced_devices] over the referenced
    entity ids, in the order the set gives them. *)
Fixpoint extract_loop (referenced : list string)
    (devices : gset target) (extracted : gset (option string))
    : outcome (gset target) :=
  match referenced with
  | [] => Returned devices
  | entity_id :: referenced' =>
      match dict_get entity_id entity_registry with
      | None => Raised (Exn AttributeError)
      | Some entity =>
          if decide (device_id entity ∈ extracted)
          then extract_loop referenced' devices extracted
          else
            match async_extract_target_device (device_id entity) with
            | Returned device =>
                extract_loop referenced' ({[ device ]} ∪ devices)
                  ({[ device_id entity ]} ∪ extracted)
            | Raised r => Raised r
            end
      end
  end.

Definition async_extract_referenced_devices (referenced : list string)
    : outcome (gset target) :=
  extract_loop referenced ∅ ∅.

(** The device an entity stands for, when the entity is registered and
    its device is found. *)
Definition target_of (entity_id : string) : option target :=
  match dict_get entity_id entity_registry with
  | Some entity =>
      match async_extract_target_device (device_id entity) with
      | Returned device => Some device
      | Raised _ => None
      end
  | None => None
  end.
End Extract.

End Extraction.

(* ===================================================================== *)
(** ** services.py: what the parameter services amount to                 *)
(* ===================================================================== *)

(** The loops of the parameter services, told without the loop: the
    properties further down compare the services with these. *)
Module ServicesSpec.
Import Py Services.

Section ParameterSpec.
Variables V SV : Type.

(** The record [get_parameter] builds for a device that gave [parameter]
    and whose product has the identifier [device_uid]. *)
Definition parameter_record (name : string) (device : Device V SV)
    (parameter : Param V) (device_uid : string) : dict string (pyval V) :=
  [ ("name", PyStr name);
    ("value", PyNum (value parameter));
    ("min_value", PyNum (min_value parameter));
    ("max_value", PyNum (max_value parameter));
    ("device_type", PyStr (lower (class_name device)));
    ("device_uid", PyStr device_uid) ]%string
  ++ match index device with
     | Some i => [("device_index"%string, PyInt (i + 1))]
     | None => []
     end.

(** The record of a device, when it gives the parameter and its product is
    known. *)
Definition record_of (name : string) (device : Device V SV)
    : option (dict string (pyval V)) :=
  match device_get device name, product_of V SV device with
  | Ok parameter, ProductInfo p =>
      Some (parameter_record name device parameter (uid p))
  | _, _ => None
  end.

(** What [device.set] returned, when it returned. *)
Definition returned (name : string) (value : SV) (device : Device V SV)
    : option bool :=
  match device_set device name value with
  | Ok r => Some r
  | Raise _ => None
  end.
End ParameterSpec.

(** The key [get_schedule] gives to the interval at [index], with the
    start of day and the time format of the device library. *)
Definition time_key (index : nat) : string :=
  strftime (add_minutes 0 (30 * Z.of_nat index)) pyplumio_TIME_FORMAT.

End ServicesSpec.

(* ===================================================================== *)
(** ** Sample devices                                                     *)
(* ===================================================================== *)

(** Concrete devices and states on which the properties below are
    exercised. *)
Module Samples.
Import Py.

(** A thermostat at integer temperatures: its target is 21, comfort is at
    21 and eco at 18. *)
Definition sample_thermostat : Climate.Thermostat Z :=
  {| Climate.get_sensor := fun _ => Ok 21;
     Climate.get_parameter := fun name =>
       if decide (name = "day_target_temp")
       then Ok {| Climate.value := 21; Climate.min_value := 10;
                  Climate.max_value := 35 |}
       else Ok {| Climate.value := 18; Climate.min_value := 10;
                  Climate.max_value := 35 |} |}.

Definition sample_world : Climate.World Z :=
  {| Climate.attrs :=
       {| Climate._attr_preset_mode := Some "eco";
          Climate._attr_target_temperature_name := Some "night_target_temp";
          Climate._attr_max_temp := Some 35;
          Climate._attr_min_temp := Some 10 |};
     Climate.log := [];
     Climate.ha_state_writes := 0%nat |}.

(** A number entity whose attribute is known to the device, and one whose
    attribute is not. *)
Definition sample_get_attribute (self : Number.EcomaxNumber) (name : string)
    : option Number.Attribute :=
  if decide (name = "heating_set_temp")
  then Some {| Number.attr_value := 65; Number.attr_min_ := 40;
               Number.attr_max_ := 80 |}
  else None.

Definition boiler_temperature : Number.EcomaxNumber :=
  {| Number._id := "heating_set_temp" |}.

Definition grate_temperature : Number.EcomaxNumber :=
  {| Number._id := "heating_temp_grate" |}.

(** Devices for the parameter services: a controller that knows its
    product, one that does not, and a mixer of the first that times out. *)
Definition sample_parameter : Services.Param Z :=
  {| Services.value := 50; Services.min_value := 30;
     Services.max_value := 80 |}.

Definition ecomax : Services.Device Z Z :=
  Services.mkDevice Z Z "EcoMAX" None
    (Some {| Services.uid := "D251PAKR3GCPZ1K8G05G0" |}) None
    (fun _ => Ok sample_parameter) (fun _ _ => Ok true).

Definition ecomax_without_product : Services.Device Z Z :=
  Services.mkDevice Z Z "EcoMAX" None None None
    (fun _ => Ok sample_parameter) (fun _ _ => Ok true).

Definition mixer : Services.Device Z Z :=
  Services.mkDevice Z Z "Mixer" (Some ecomax) None (Some 0)
    (fun _ => Raise TimeoutError) (fun _ _ => Raise TimeoutError).

(** A controller that has no such parameter and finds the value out of
    range. *)
Definition strict_ecomax : Services.Device Z Z :=
  Services.mkDevice Z Z "EcoMAX" None
    (Some {| Services.uid := "D251PAKR3GCPZ1K8G05G0" |}) None
    (fun _ => Raise ParameterNotFoundError)
    (fun _ _ => Raise (ValueError "Value is out of range")).

(** A connection with a heating schedule of 48 half hours a day, all off,
    and one whose Monday has a 49th interval, switched on. *)
Definition day_off : list bool := replicate 48 false.

Definition week_off : Services.Schedule :=
  {| Services.monday := day_off; Services.tuesday := day_off;
     Services.wednesday := day_off; Services.thursday := day_off;
     Services.friday := day_off; Services.saturday := day_off;
     Services.sunday := day_off |}.

Definition sample_connection : Services.Connection :=
  {| Services.data_schedules := Some [("heating", week_off)];
     Services.committed := [] |}.

Definition long_monday : list bool := day_off ++ [true].

Definition long_connection : Services.Connection :=
  {| Services.data_schedules :=
       Some [("heating", Services.with_weekday week_off "monday" long_monday)];
     Services.committed := [] |}.

(** A [set_state] in the manner of the device library: the bounds are
    times of day, an end at midnight closes the day, an interval that ends
    before it starts is refused, and the half hours in between take the
    state. *)
Definition sample_set_state (day : list bool) (state start_time end_time : string)
    : result unit * list bool :=
  match strptime start_time "%H:%M", strptime end_time "%H:%M" with
  | Ok s, Ok e =>
      let e := if e =? 0 then 1440 else e in
      if e <=? s then (Raise (ValueError "invalid time interval"), day)
      else (Ok tt,
            imap (fun i v =>
                    if (s `div` 30 <=? Z.of_nat i) && (Z.of_nat i <? e `div` 30)
                    then bool_decide (state = "on") else v) day)
  | _, _ => (Raise (ValueError "time data does not match format"), day)
  end.

(** A thermostat that does not answer. *)
Definition silent_thermostat : Climate.Thermostat Z :=
  {| Climate.get_sensor := fun _ => Raise TimeoutError;
     Climate.get_parameter := fun _ => Raise TimeoutError |}.

(** The sample entity in schedule mode, and as a whole entity. *)
Definition schedule_world : Climate.World Z :=
  Climate.set_preset_mode Z "schedule" sample_world.

Definition sample_entity : ClimateEntity.Entity Z :=
  {| ClimateEntity.world := sample_world;
     ClimateEntity._attr_target_temperature := Some 18;
     ClimateEntity._attr_current_temperature := Some 20;
     ClimateEntity._attr_hvac_action := Some ClimateEntity.IDLE;
     ClimateEntity.set_nowait_calls := [] |}.

Definition schedule_entity : ClimateEntity.Entity Z :=
  ClimateEntity.with_world Z schedule_world sample_entity.

(** Registries with a controller, its mixer 0 under two entities, a mixer
    5 that the controller does not have, and an entity without a device. *)
Definition sample_device_registry : dict string Extraction.DeviceEntry :=
  [ ("a1", {| Extraction.identifiers :=
                [("plum_ecomax", "D251PAKR3GCPZ1K8G05G0")] |});
    ("b2", {| Extraction.identifiers :=
                [("plum_ecomax", "D251PAKR3GCPZ1K8G05G0-mixer-0")] |});
    ("c3", {| Extraction.identifiers :=
                [("plum_ecomax", "D251PAKR3GCPZ1K8G05G0-mixer-5")] |}) ].

Definition sample_entity_registry : dict string Extraction.RegistryEntry :=
  [ ("sensor.heating_temp", {| Extraction.device_id := Some "a1" |});
    ("sensor.mixer_temp", {| Extraction.device_id := Some "b2" |});
    ("number.mixer_target_temp", {| Extraction.device_id := Some "b2" |});
    ("sensor.helper", {| Extraction.device_id := None |}) ].

Definition sample_mixers : dict Z unit := [(0, tt)].

Fixpoint digits_value (s : string) (acc : Z) : option Z :=
  match s with
  | EmptyString => Some acc
  | String c s' =>
      match digit_value c with
      | Some d => digits_value s' (10 * acc + d)
      | None => None
      end
  end.

(** [int] on text made of decimal digits; other text is refused here. *)
Definition sample_int (s : string) : result Z :=
  match s with
  | EmptyString => Raise (ValueError "invalid literal for int()")
  | _ =>
      match digits_value s 0 with
      | Some z => Ok z
      | None => Raise (ValueError "invalid literal for int()")
      end
  end.

End Samples.

(* ===================================================================== *)
(** * Properties                                                          *)
(* ===================================================================== *)

Import Py Samples.

(** ** Dictionaries *)

Section DictFacts.
Context {K V : Type} `{EqDecision K}.
Implicit Types (d : dict K V) (k : K) (v : V).

Lemma dict_get_set_eq d k v : dict_get k (dict_set k v d) = Some v.
Proof.
  induction d as [|[k' v'] d IH]; simpl.
  - by rewrite decide_True.
  - destruct (decide (k = k')) as [->|Hne]; simpl.
    + by rewrite decide_True.
    + by rewrite decide_False.
Qed.

Lemma dict_get_set_ne d k k' v :
  k <> k' -> dict_get k' (dict_set k v d) = dict_get k' d.
Proof.
  intros Hne. induction d as [|[k0 v0] d IH]; simpl.
  - rewrite decide_False; [done | congruence].
  - destruct (decide (k = k0)) as [->|Hk0]; simpl.
    + rewrite !decide_False; [done | congruence | congruence].
    + destruct (decide (k' = k0)); [done | apply IH].
Qed.

(** A key that is not in the dictionary goes last. *)
Lemma dict_set_fresh d k v : k ∉ dict_keys d -> dict_set k v d = d ++ [(k, v)].
Proof.
  unfold dict_keys. induction d as [|[k' v'] d IH]; simpl; intros Hk; [done|].
  apply not_elem_of_cons in Hk as [Hne Hk].
  rewrite decide_False by done. by rewrite IH.
Qed.

Lemma fold_dict_set_fresh (items : list (K * V)) d :
  NoDup (dict_keys d ++ items.*1) ->
  fold_left (fun d kv => dict_set kv.1 kv.2 d) items d = d ++ items.
Proof.
  unfold dict_keys. revert d.
  induction items as [|[k v] items IH]; intros d Hnd; simpl.
  - by rewrite app_nil_r.
  - simpl in Hnd. rewrite dict_set_fresh.
    + rewrite IH.
      * by rewrite <- app_assoc.
      * rewrite fmap_app. simpl. by rewrite <- app_assoc.
    + apply NoDup_app in Hnd as (_ & Hd & _).
      intros Hin. apply (Hd k Hin). left.
Qed.

(** Items under pairwise different keys are stored as they come. *)
Lemma dict_of_items_NoDup (items : list (K * V)) :
  NoDup items.*1 -> dict_of_items items = items.
Proof. intros Hnd. unfold dict_of_items. by rewrite fold_dict_set_fresh. Qed.
End DictFacts.

(** ** climate.py *)

Section PresetTables.
Import Climate.

Lemma HA_TO_EM_MODE_keys : dict_keys HA_TO_EM_MODE = CLIMATE_MODES.
Proof. reflexivity. Qed.

Lemma EM_TO_HA_MODE_domain (m : Z) :
  is_Some (dict_get m EM_TO_HA_MODE) <-> 0 <= m <= 7.
Proof.
  split.
  - intros [p Hp]. revert Hp.
    change EM_TO_HA_MODE with
      [(0, PRESET_SCHEDULE); (1, PRESET_ECO); (2, PRESET_COMFORT);
       (3, PRESET_AWAY); (4, PRESET_AIRING); (5, PRESET_PARTY);
       (6, PRESET_HOLIDAYS); (7, PRESET_ANTIFREEZE)].
    simpl. repeat case_decide; try discriminate; lia.
  - intros Hm.
    assert (m = 0 \/ m = 1 \/ m = 2 \/ m = 3 \/ m = 4 \/ m = 5 \/ m = 6 \/ m = 7)
      as Hcases by lia.
    destruct Hcases as [->|[->|[->|[->|[->|[->|[->| ->]]]]]]]; by eexists.
Qed.

(** C1. The two preset tables are inverse to each other: a device mode
    code [m] of 0..7 is sent by [EM_TO_HA_MODE] to a preset name that
    [HA_TO_EM_MODE] sends back to [m], and a preset name [p] of the fixed
    preset set is sent by [HA_TO_EM_MODE] to a mode code that
    [EM_TO_HA_MODE] sends back to [p]. *)
Theorem preset_tables_round_trip (m : Z) (p : string) :
  (0 <= m <= 7 ->
   exists p', dict_subscript m EM_TO_HA_MODE = Ok p'
              /\ dict_subscript p' HA_TO_EM_MODE = Ok m)
  /\ (p ∈ CLIMATE_MODES ->
      exists m', dict_subscript p HA_TO_EM_MODE = Ok m'
                 /\ dict_subscript m' EM_TO_HA_MODE = Ok p).
Proof.
  split.
  - intros Hm.
    assert (m = 0 \/ m = 1 \/ m = 2 \/ m = 3 \/ m = 4 \/ m = 5 \/ m = 6 \/ m = 7)
      as Hcases by lia.
    destruct Hcases as [->|[->|[->|[->|[->|[->|[->| ->]]]]]]];
      eexists; split; reflexivity.
  - unfold CLIMATE_MODES. intros Hp.
    repeat (apply elem_of_cons in Hp as [->|Hp];
            [eexists; split; reflexivity|]).
    by apply elem_of_nil in Hp.
Qed.

Lemma preset_tables_round_trip_witness :
  (exists p', dict_subscript 3 EM_TO_HA_MODE = Ok p'
              /\ dict_subscript p' HA_TO_EM_MODE = Ok 3)
  /\ (exists m', dict_subscript "party" HA_TO_EM_MODE = Ok m'
                 /\ dict_subscript m' EM_TO_HA_MODE = Ok "party").
Proof.
  split.
  - apply (proj1 (preset_tables_round_trip 3 "party")). lia.
  - apply (proj2 (preset_tables_round_trip 3 "party")).
    unfold CLIMATE_MODES, PRESET_PARTY. do 5 right. left.
Defined.

(** C2. The preset modes the climate entity offers are [CLIMATE_MODES],
    which holds the eight names schedule, eco, comfort, away, airing,
    party, holidays and antifreeze, each once, and nothing else; as a set
    it is the set of keys of [HA_TO_EM_MODE]. *)
Theorem climate_modes_exact :
  _attr_preset_modes = CLIMATE_MODES
  /\ (forall p : string,
        p ∈ CLIMATE_MODES <->
        p = "schedule" \/ p = "eco" \/ p = "comfort" \/ p = "away"
        \/ p = "airing" \/ p = "party" \/ p = "holidays"
        \/ p = "antifreeze")
  /\ NoDup CLIMATE_MODES
  /\ list_to_set CLIMATE_MODES =@{gset string}
     list_to_set (dict_keys HA_TO_EM_MODE).
Proof.
  split; [reflexivity|]. split; [|split].
  - intros p. unfold CLIMATE_MODES. rewrite !elem_of_cons, elem_of_nil.
    unfold PRESET_SCHEDULE, PRESET_ECO, PRESET_COMFORT, PRESET_AWAY,
      PRESET_AIRING, PRESET_PARTY, PRESET_HOLIDAYS, PRESET_ANTIFREEZE.
    tauto.
  - apply (bool_decide_unpack _). vm_compute. exact I.
  - by rewrite HA_TO_EM_MODE_keys.
Qed.
End PresetTables.

Section ThermostatProperties.
Import Climate.
Variable V : Type.
Variable py_eq : V -> V -> bool.
Variable py_int : V -> result Z.
Variable device : Thermostat V.

Notation "'py_ne'" := (Climate.py_ne V py_eq) (only parsing).
Notation "'_async_get_current_schedule_preset'" :=
  (Climate._async_get_current_schedule_preset V py_eq device) (only parsing).
Notation "'async_update_preset_mode'" :=
  (Climate.async_update_preset_mode V py_eq py_int device) (only parsing).

Lemma preset_names_differ :
  PRESET_COMFORT <> PRESET_ECO /\ PRESET_COMFORT <> PRESET_UNKNOWN
  /\ PRESET_ECO <> PRESET_UNKNOWN.
Proof. repeat split; discriminate. Qed.

(** C3. With target temperature [t], comfort parameter [comfort]
    (day_target_temp) and eco parameter [eco] (night_target_temp),
    [_async_get_current_schedule_preset] returns, without touching the
    entity: PRESET_COMFORT exactly when [t] equals the comfort value and
    differs from the eco value; PRESET_ECO exactly when [t] equals the eco
    value and differs from the comfort value; PRESET_UNKNOWN exactly in
    the remaining cases. *)
Theorem schedule_preset_resolution
    (target_temp : option V) (t : V) (comfort eco : ThermostatParameter V)
    (w : World V) :
  match target_temp with
  | Some given => given = t
  | None => get_sensor V device "target_temp" = Ok t
  end ->
  get_parameter V device "day_target_temp" = Ok comfort ->
  get_parameter V device "night_target_temp" = Ok eco ->
  exists preset : string,
    _async_get_current_schedule_preset target_temp w = (Ok preset, w)
    /\ (preset = PRESET_COMFORT <->
        py_eq t (value V comfort) = true /\ py_ne t (value V eco) = true)
    /\ (preset = PRESET_ECO <->
        py_eq t (value V eco) = true /\ py_ne t (value V comfort) = true)
    /\ (preset = PRESET_UNKNOWN <->
        ~ (py_eq t (value V comfort) = true /\ py_ne t (value V eco) = true)
        /\ ~ (py_eq t (value V eco) = true
              /\ py_ne t (value V comfort) = true)).
Proof using V py_eq device.
  clear py_int. intros Ht Hc He.
  pose proof preset_names_differ as (Hce & Hcu & Heu).
  assert (_async_get_current_schedule_preset target_temp w
          = (Ok (if py_eq t (value V eco) && py_ne t (value V comfort)
                 then PRESET_ECO
                 else if py_eq t (value V comfort) && py_ne t (value V eco)
                      then PRESET_COMFORT else PRESET_UNKNOWN), w)) as Hrun.
  { unfold Climate._async_get_current_schedule_preset, bind, await, ret.
    destruct target_temp as [given|]; [subst given | rewrite Ht];
      change (dict_subscript PRESET_COMFORT HA_PRESET_TO_EM_TEMP)
        with (Ok "day_target_temp" : result string);
      change (dict_subscript PRESET_ECO HA_PRESET_TO_EM_TEMP)
        with (Ok "night_target_temp" : result string);
      cbv beta iota; rewrite Hc, He; reflexivity. }
  rewrite Hrun. unfold Climate.py_ne.
  destruct (py_eq t (value V comfort)), (py_eq t (value V eco)); simpl;
    eexists; (split; [reflexivity|]); repeat split;
    try tauto; try congruence; try (intros [? ?]; congruence);
    try (intros ?; exfalso; congruence).
Qed.

(** C9. A mode value outside 0..7, given as an [int] or as the value of a
    [ThermostatParameter], makes [async_update_preset_mode] log one error
    and return: the preset mode, the target temperature name and the
    minimum and maximum temperatures are what they were, and
    [async_write_ha_state] is not called. *)
Theorem unknown_mode_ignored (arg : mode_arg V) (mode : Z) (w : World V) :
  match arg with
  | ModeInt _ z => z = mode
  | ModeParameter _ p => py_int (value V p) = Ok mode
  end ->
  ~ (0 <= mode <= 7) ->
  exists w' : World V,
    async_update_preset_mode arg w = (Ok tt, w')
    /\ attrs V w' = attrs V w
    /\ ha_state_writes V w' = ha_state_writes V w
    /\ log V w' =
       log V w ++ [LogRecord ERROR "Unknown climate preset %d." [ArgInt mode]].
Proof.
  intros Harg Hout.
  assert (dict_get mode EM_TO_HA_MODE = None) as Hnone.
  { destruct (dict_get mode EM_TO_HA_MODE) as [p|] eqn:Hp; [|done].
    exfalso. apply Hout, EM_TO_HA_MODE_domain. by exists p. }
  exists (logger_error V "Unknown climate preset %d." [ArgInt mode] w).
  split; [|repeat split].
  unfold Climate.async_update_preset_mode, bind, await, ret, modify.
  destruct arg as [z|p]; [subst z | rewrite Harg];
    cbv beta iota; rewrite Hnone; reflexivity.
Qed.
End ThermostatProperties.

(** A known mode, for comparison: mode 0 is the schedule preset, which the
    sample thermostat resolves to comfort; the entity takes the comfort
    parameter as its target and writes its state once. *)
Example known_mode_updates :
  Climate.async_update_preset_mode Z Z.eqb Ok sample_thermostat
    (Climate.ModeInt Z 0) sample_world
  = (Ok tt,
     {| Climate.attrs :=
          {| Climate._attr_preset_mode := Some "schedule";
             Climate._attr_target_temperature_name := Some "day_target_temp";
             Climate._attr_max_temp := Some 35;
             Climate._attr_min_temp := Some 10 |};
        Climate.log := [];
        Climate.ha_state_writes := 1%nat |}).
Proof. reflexivity. Qed.

Lemma schedule_preset_resolution_witness :
  exists preset : string,
    Climate._async_get_current_schedule_preset Z Z.eqb sample_thermostat
      None sample_world = (Ok preset, sample_world)
    /\ (preset = Climate.PRESET_COMFORT <->
        (21 =? 21) = true /\ Climate.py_ne Z Z.eqb 21 18 = true)
    /\ (preset = Climate.PRESET_ECO <->
        (21 =? 18) = true /\ Climate.py_ne Z Z.eqb 21 21 = true)
    /\ (preset = Climate.PRESET_UNKNOWN <->
        ~ ((21 =? 21) = true /\ Climate.py_ne Z Z.eqb 21 18 = true)
        /\ ~ ((21 =? 18) = true /\ Climate.py_ne Z Z.eqb 21 21 = true)).
Proof.
  apply (schedule_preset_resolution Z Z.eqb sample_thermostat None 21
           {| Climate.value := 21; Climate.min_value := 10;
              Climate.max_value := 35 |}
           {| Climate.value := 18; Climate.min_value := 10;
              Climate.max_value := 35 |}
           sample_world); reflexivity.
Defined.

Lemma unknown_mode_ignored_witness :
  exists w' : Climate.World Z,
    Climate.async_update_preset_mode Z Z.eqb Ok sample_thermostat
      (Climate.ModeInt Z 8) sample_world = (Ok tt, w')
    /\ Climate.attrs Z w' = Climate.attrs Z sample_world
    /\ Climate.ha_state_writes Z w' = Climate.ha_state_writes Z sample_world
    /\ Climate.log Z w' =
       Climate.log Z sample_world
       ++ [LogRecord ERROR "Unknown climate preset %d." [ArgInt 8]].
Proof.
  apply (unknown_mode_ignored Z Z.eqb Ok sample_thermostat
           (Climate.ModeInt Z 8) 8 sample_world); [reflexivity | lia].
Defined.

(** ** number.py *)

Section NumberProperties.
Import Number.
Variable get_attribute : EcomaxNumber -> string -> option Attribute.

(** C10. The [value], [min_value] and [max_value] properties of a number
    entity return 0 when the device has no attribute under the entity's
    id, and the attribute's [value], [min_] and [max_] when it has. *)
Theorem number_properties (self : EcomaxNumber) (found : option Attribute) :
  get_attribute self (_id self) = found ->
  match found with
  | None =>
      value get_attribute self = 0
      /\ min_value get_attribute self = 0
      /\ max_value get_attribute self = 0
  | Some attr =>
      value get_attribute self = attr_value attr
      /\ min_value get_attribute self = attr_min_ attr
      /\ max_value get_attribute self = attr_max_ attr
  end.
Proof.
  intros Hfound. unfold value, min_value, max_value. rewrite Hfound.
  by destruct found.
Qed.
End NumberProperties.

Lemma number_properties_witness :
  (Number.value sample_get_attribute grate_temperature = 0
   /\ Number.min_value sample_get_attribute grate_temperature = 0
   /\ Number.max_value sample_get_attribute grate_temperature = 0)
  /\ (Number.value sample_get_attribute boiler_temperature = 65
      /\ Number.min_value sample_get_attribute boiler_temperature = 40
      /\ Number.max_value sample_get_attribute boiler_temperature = 80).
Proof.
  split.
  - apply (number_properties sample_get_attribute grate_temperature None).
    reflexivity.
  - apply (number_properties sample_get_attribute boiler_temperature
             (Some {| Number.attr_value := 65; Number.attr_min_ := 40;
                      Number.attr_max_ := 80 |})).
    reflexivity.
Defined.

(** ** services.py: schedules *)

Section DictKeys.
Context {K V : Type} `{EqDecision K}.

Lemma dict_get_None (d : dict K V) (k : K) :
  dict_get k d = None <-> k ∉ dict_keys d.
Proof.
  unfold dict_keys. induction d as [|[k' v] d IH]; simpl.
  - split; [intros _; apply not_elem_of_nil | done].
  - rewrite not_elem_of_cons. destruct (decide (k = k')) as [->|Hne].
    + split; [discriminate | intros [? _]; done].
    + rewrite IH. tauto.
Qed.

Lemma dict_contains_false (d : dict K V) (k : K) :
  k ∉ dict_keys d -> dict_contains k d = false.
Proof.
  intros Hk. apply dict_get_None in Hk. unfold dict_contains. by rewrite Hk.
Qed.

Lemma dict_contains_true (d : dict K V) (k : K) (v : V) :
  dict_get k d = Some v -> dict_contains k d = true.
Proof. intros Hk. unfold dict_contains. by rewrite Hk. Qed.
End DictKeys.

Section ScheduleProperties.
Import Services.
Variables STATE_ON STATE_OFF START_OF_DAY TIME_FORMAT : string.
Variable set_state :
  list bool -> string -> string -> string -> result unit * list bool.

Notation "'async_set_schedule_service'" :=
  (Services.async_set_schedule_service STATE_ON STATE_OFF set_state)
  (only parsing).
Notation "'async_get_schedule_service'" :=
  (Services.async_get_schedule_service START_OF_DAY TIME_FORMAT)
  (only parsing).

(** C7. When the requested schedule type is not among the schedules of the
    device, [get_schedule] and [set_schedule] both raise the error that
    says the schedule is not supported, and [set_schedule] leaves the
    schedules and the list of committed schedules as they were. *)
Theorem unsupported_schedule_rejected
    (schedule_type weekday start_time end_time : string) (state : bool)
    (c : Connection) :
  schedule_type ∉ dict_keys (get_nowait_schedules c) ->
  let unsupported :=
    HomeAssistantError
      (schedule_type
       +:+ " schedule is not supported by the device, check logs for more info")
  in
  async_get_schedule_service schedule_type weekday c = (Raise unsupported, c)
  /\ async_set_schedule_service schedule_type weekday state
       start_time end_time c = (Raise unsupported, c).
Proof using Type.
  intros Hk unsupported. apply dict_contains_false in Hk.
  unfold Services.async_get_schedule_service,
    Services.async_set_schedule_service, bind, gets, raise.
  by rewrite Hk.
Qed.

(** C8. When [set_state] raises [ValueError] on the requested interval,
    [set_schedule] raises the error about the time interval and nothing is
    committed: the schedules sent to the device are those sent before the
    call. *)
Theorem set_state_failure_prevents_commit
    (schedule_type weekday start_time end_time : string) (state : bool)
    (c : Connection) (schedule : Schedule) (schedule_day : list bool)
    (msg : string) :
  dict_get schedule_type (get_nowait_schedules c) = Some schedule ->
  getattr_weekday schedule weekday = Ok schedule_day ->
  (set_state schedule_day (if state then STATE_ON else STATE_OFF)
     (drop_last3 start_time) (drop_last3 end_time)).1
  = Raise (ValueError msg) ->
  exists c' : Connection,
    async_set_schedule_service schedule_type weekday state
      start_time end_time c
    = (Raise (HomeAssistantError
                ("Error while trying to parse time interval for "
                 +:+ schedule_type +:+ " schedule")), c')
    /\ committed c' = committed c.
Proof using Type.
  intros Hget Hday Hraise.
  unfold Services.async_set_schedule_service, bind, gets, await, try_except,
    call_set_state, raise, dict_subscript.
  rewrite (dict_contains_true _ _ _ Hget), Hget, Hday.
  destruct (set_state _ _ _ _) as [r day']. simpl in Hraise. subst r.
  eexists. split; reflexivity.
Qed.

(** The other side of C8: when [set_state] returns, the schedule it left
    behind is committed. *)
Lemma set_state_success_commits
    (schedule_type weekday start_time end_time : string) (state : bool)
    (c : Connection) (schedules : dict string Schedule)
    (schedule : Schedule) (schedule_day : list bool) :
  data_schedules c = Some schedules ->
  dict_get schedule_type schedules = Some schedule ->
  getattr_weekday schedule weekday = Ok schedule_day ->
  (set_state schedule_day (if state then STATE_ON else STATE_OFF)
     (drop_last3 start_time) (drop_last3 end_time)).1 = Ok tt ->
  exists (c' : Connection) (schedule' : Schedule),
    async_set_schedule_service schedule_type weekday state
      start_time end_time c = (Ok tt, c')
    /\ committed c' = committed c ++ [(schedule_type, schedule')].
Proof using Type.
  intros Hdata Hget Hday Hok.
  unfold Services.async_set_schedule_service, bind, gets, await, try_except,
    call_set_state, raise, dict_subscript, commit, get_nowait_schedules.
  rewrite Hdata. rewrite (dict_contains_true _ _ _ Hget), Hget, Hday.
  destruct (set_state _ _ _ _) as [r day']. simpl in Hok. subst r.
  unfold store_weekday. rewrite Hdata, Hget. simpl.
  rewrite dict_get_set_eq. eexists _, _. split; reflexivity.
Qed.
End ScheduleProperties.

Lemma unsupported_schedule_rejected_witness :
  let unsupported :=
    HomeAssistantError
      "water_heater schedule is not supported by the device, check logs for more info"
  in
  Services.async_get_schedule_service
    Services.pyplumio_START_OF_DAY Services.pyplumio_TIME_FORMAT
    "water_heater" "monday" sample_connection
  = (Raise unsupported, sample_connection)
  /\ Services.async_set_schedule_service "on" "off" sample_set_state
       "water_heater" "monday" true "06:00:00" "22:00:00" sample_connection
     = (Raise unsupported, sample_connection).
Proof.
  apply (unsupported_schedule_rejected "on" "off"
           Services.pyplumio_START_OF_DAY Services.pyplumio_TIME_FORMAT
           sample_set_state
           "water_heater" "monday" "06:00:00" "22:00:00" true
           sample_connection).
  apply not_elem_of_cons. split; [discriminate | apply not_elem_of_nil].
Defined.

Lemma set_state_failure_prevents_commit_witness :
  exists c' : Services.Connection,
    Services.async_set_schedule_service "on" "off" sample_set_state
      "heating" "monday" true "12:00:00" "08:00:00" sample_connection
    = (Raise (HomeAssistantError
                "Error while trying to parse time interval for heating schedule"),
       c')
    /\ Services.committed c' = Services.committed sample_connection.
Proof.
  apply (set_state_failure_prevents_commit "on" "off" sample_set_state
           "heating" "monday" "12:00:00" "08:00:00" true
           sample_connection week_off day_off "invalid time interval");
    reflexivity.
Defined.

(** *** get_schedule *)

Section GetSchedule.
Import Services.

Lemma imap_keys {A B : Type} (g : nat -> A) (l : list B) :
  (imap (fun i v => (g i, v)) l).*1 = g <$> seq 0 (length l).
Proof.
  revert g. induction l as [|x l IH]; intros g; [done|].
  simpl. f_equal. rewrite <- fmap_S_seq, <- list_fmap_compose.
  apply (IH (g ∘ S)).
Qed.

Lemma dict_get_lookup {K V : Type} `{EqDecision K}
    (d : dict K V) (i : nat) (k : K) (v : V) :
  NoDup d.*1 -> d !! i = Some (k, v) -> dict_get k d = Some v.
Proof.
  revert i. induction d as [|[k' v'] d IH]; intros i Hnd Hi; [done|].
  simpl in Hnd. apply NoDup_cons in Hnd as [Hk' Hnd].
  destruct i as [|i]; simpl in *.
  - injection Hi as -> ->. by rewrite decide_True.
  - rewrite decide_False; [by apply (IH i)|].
    intros ->. apply Hk'. apply list_elem_of_fmap.
    exists (k', v). split; [done|]. by apply list_elem_of_lookup_2 in Hi.
Qed.

(** The key of the interval at [index]. *)
Notation "'key_of'" :=
  (fun (TIME_FORMAT : string) (start_of_day_dt : datetime) (index : nat) =>
     strftime (add_minutes start_of_day_dt (30 * Z.of_nat index)) TIME_FORMAT)
  (only parsing).

(** Intervals whose keys differ from one another are stored one by one,
    in their order. *)
Lemma intervals_dict_distinct_keys
    (TIME_FORMAT : string) (start_of_day_dt : datetime) (intervals : list bool) :
  NoDup (key_of TIME_FORMAT start_of_day_dt <$> seq 0 (length intervals)) ->
  intervals_dict TIME_FORMAT start_of_day_dt intervals
  = imap (fun index value =>
            (key_of TIME_FORMAT start_of_day_dt index, value)) intervals.
Proof.
  intros Hnd. unfold intervals_dict.
  apply dict_of_items_NoDup. by rewrite imap_keys.
Qed.

(** A day has 48 half hours, and their keys are 48 different times. *)
Lemma half_hour_keys_distinct :
  NoDup (key_of pyplumio_TIME_FORMAT 0 <$> seq 0 48).
Proof. apply (bool_decide_unpack _). vm_compute. exact I. Qed.

Lemma half_hour_keys_distinct_prefix (n : nat) :
  (n <= 48)%nat -> NoDup (key_of pyplumio_TIME_FORMAT 0 <$> seq 0 n).
Proof.
  intros Hn. pose proof half_hour_keys_distinct as Hall.
  replace 48%nat with (n + (48 - n))%nat in Hall by lia.
  rewrite seq_app, fmap_app in Hall.
  by apply NoDup_app in Hall as [? _].
Qed.

(** C6, for a day of at most 48 intervals. [get_schedule] returns under
    "schedule" a mapping with one entry per interval of the selected
    weekday, in order: entry [i] has as key the start of day plus 30*i
    minutes, written with the time format, and as value interval [i];
    looking that key up gives interval [i]. *)
Theorem get_schedule_intervals
    (schedule_type weekday : string) (c : Connection)
    (schedule : Schedule) (intervals : list bool) :
  dict_get schedule_type (get_nowait_schedules c) = Some schedule ->
  getattr_weekday schedule weekday = Ok intervals ->
  (length intervals <= 48)%nat ->
  exists (start_of_day_dt : datetime) (mapping : dict string bool),
    strptime pyplumio_START_OF_DAY pyplumio_TIME_FORMAT = Ok start_of_day_dt
    /\ async_get_schedule_service pyplumio_START_OF_DAY pyplumio_TIME_FORMAT
         schedule_type weekday c
       = (Ok ("schedule", mapping), c)
    /\ length mapping = length intervals
    /\ forall (i : nat) (v : bool),
         intervals !! i = Some v ->
         mapping !! i
         = Some (key_of pyplumio_TIME_FORMAT start_of_day_dt i, v)
         /\ dict_get (key_of pyplumio_TIME_FORMAT start_of_day_dt i) mapping
            = Some v.
Proof.
  intros Hget Hday Hlen.
  pose proof (half_hour_keys_distinct_prefix _ Hlen) as Hnd.
  exists 0, (intervals_dict pyplumio_TIME_FORMAT 0 intervals).
  split; [reflexivity|]. split.
  { unfold Services.async_get_schedule_service, bind, gets, await, ret,
      dict_subscript.
    rewrite (dict_contains_true _ _ _ Hget), Hget, Hday.
    reflexivity. }
  rewrite (intervals_dict_distinct_keys _ _ _ Hnd).
  split; [apply length_imap|].
  intros i v Hi.
  assert (imap (fun index value => (key_of pyplumio_TIME_FORMAT 0 index, value))
            intervals !! i
          = Some (key_of pyplumio_TIME_FORMAT 0 i, v)) as Hentry.
  { by rewrite list_lookup_imap, Hi. }
  split; [exact Hentry|].
  apply (dict_get_lookup _ i); [|exact Hentry].
  by rewrite imap_keys.
Qed.

Lemma get_schedule_intervals_witness :
  exists (start_of_day_dt : datetime) (mapping : dict string bool),
    strptime pyplumio_START_OF_DAY pyplumio_TIME_FORMAT = Ok start_of_day_dt
    /\ async_get_schedule_service pyplumio_START_OF_DAY pyplumio_TIME_FORMAT
         "heating" "friday" sample_connection
       = (Ok ("schedule", mapping), sample_connection)
    /\ length mapping = length day_off
    /\ forall (i : nat) (v : bool),
         day_off !! i = Some v ->
         mapping !! i
         = Some (key_of pyplumio_TIME_FORMAT start_of_day_dt i, v)
         /\ dict_get (key_of pyplumio_TIME_FORMAT start_of_day_dt i) mapping
            = Some v.
Proof.
  apply (get_schedule_intervals "heating" "friday" sample_connection
           week_off day_off); [reflexivity | reflexivity |].
  unfold day_off. rewrite length_replicate. lia.
Defined.

(** C6 as it stands fails on a day of 49 intervals: the 49th is written
    under the key of the first, "00:00", so that entry 0 of the mapping
    holds the value of interval 48 and not that of interval 0. *)
Lemma get_schedule_intervals_counterexample :
  ~ exists (start_of_day_dt : datetime) (mapping : dict string bool),
      strptime pyplumio_START_OF_DAY pyplumio_TIME_FORMAT = Ok start_of_day_dt
      /\ async_get_schedule_service pyplumio_START_OF_DAY pyplumio_TIME_FORMAT
           "heating" "monday" long_connection
         = (Ok ("schedule", mapping), long_connection)
      /\ forall (i : nat) (v : bool),
           long_monday !! i = Some v ->
           mapping !! i
           = Some (key_of pyplumio_TIME_FORMAT start_of_day_dt i, v).
Proof.
  intros (start_of_day_dt & mapping & Hstart & Hrun & Hentries).
  vm_compute in Hstart. injection Hstart as <-.
  vm_compute in Hrun. injection Hrun as <-.
  specialize (Hentries 0%nat false eq_refl).
  vm_compute in Hentries. discriminate Hentries.
Qed.
End GetSchedule.

(** ** services.py: parameters *)

Section SetParameter.
Import Services.
Variables V SV : Type.
Variable name : string.
Variable value : SV.

Notation "'set_parameter_for'" :=
  (Services.set_parameter_for V SV name value) (only parsing).
Notation "'set_parameter_loop'" :=
  (Services.set_parameter_loop V SV name value) (only parsing).
Notation "'async_set_parameter_service'" :=
  (Services.async_set_parameter_service V SV name value) (only parsing).
Notation "'not_found_record'" :=
  (LogRecord EXCEPTION "Requested parameter %s not found" [ArgStr name])
  (only parsing).
Notation "'set_caught'" := (Services.set_caught V SV name value).
Notation "'set_passed'" := (Services.set_passed V SV name value).
Notation "'set_succeeded'" := (Services.set_succeeded V SV name value).

Lemma set_parameter_for_caught device results l :
  set_caught device ->
  set_parameter_for results device l = (Ok results, l ++ [not_found_record]).
Proof.
  unfold Services.set_parameter_for, try_except, bind, await.
  by intros [-> | ->].
Qed.

Lemma set_parameter_for_returned device results l r :
  device_set device name value = Ok r ->
  set_parameter_for results device l = (Ok ({[ r ]} ∪ results), l).
Proof.
  unfold Services.set_parameter_for, try_except, bind, await.
  by intros ->.
Qed.

Lemma set_parameter_for_value_error device results l msg :
  device_set device name value = Raise (ValueError msg) ->
  set_parameter_for results device l
  = (Raise (HomeAssistantError ("Couldn't set parameter: " +:+ msg)), l).
Proof.
  unfold Services.set_parameter_for, try_except, bind, await.
  by intros ->.
Qed.

(** Over devices that all pass, the loop returns, and its result set
    holds [True] exactly when it did before or some device succeeded. *)
Lemma set_parameter_loop_passed devices results l :
  Forall set_passed devices ->
  exists (results' : gset bool) (l' : list log_record),
    set_parameter_loop devices results l = (Ok results', l')
    /\ (true ∈ results' <-> true ∈ results \/ Exists set_succeeded devices).
Proof.
  intros Hall. revert results l.
  induction Hall as [|device devices Hd _ IH]; intros results l.
  - exists results, l. split; [done|]. rewrite Exists_nil. tauto.
  - simpl. unfold bind at 1. destruct Hd as [[r Hr] | Hc].
    + rewrite (set_parameter_for_returned _ _ _ _ Hr).
      destruct (IH ({[ r ]} ∪ results) l) as (results' & l' & -> & Hin).
      exists results', l'. split; [done|].
      rewrite Hin, Exists_cons, elem_of_union, elem_of_singleton.
      unfold Services.set_succeeded at 2. rewrite Hr.
      split; [intros [[<- | ?] | ?]; auto | intros [? | [[= <-] | ?]]; auto].
    + rewrite (set_parameter_for_caught _ _ _ Hc).
      destruct (IH results (l ++ [not_found_record]))
        as (results' & l' & -> & Hin).
      exists results', l'. split; [done|].
      rewrite Hin, Exists_cons. unfold Services.set_succeeded at 2.
      destruct Hc as [Hc | Hc]; rewrite Hc;
        (split; [intros [? | ?]; auto | intros [? | [[=] | ?]]; auto]).
Qed.

(** Devices that pass, ahead of the others, only move the loop on. *)
Lemma set_parameter_loop_prefix before rest results l :
  Forall set_passed before ->
  exists (results' : gset bool) (l' : list log_record),
    set_parameter_loop (before ++ rest) results l
    = set_parameter_loop rest results' l'.
Proof.
  intros Hall. revert results l.
  induction Hall as [|device devices Hd _ IH]; intros results l.
  - by exists results, l.
  - simpl. unfold bind at 1. destruct Hd as [[r Hr] | Hc].
    + rewrite (set_parameter_for_returned _ _ _ _ Hr). apply IH.
    + rewrite (set_parameter_for_caught _ _ _ Hc). apply IH.
Qed.

(** C5. In [set_parameter]: (1) a device whose [set] raises
    [ParameterNotFoundError] or [TimeoutError] adds one record to the log
    and the loop goes on as if the device had not been selected; (2) a
    [ValueError] from [set] ends the service with a [HomeAssistantError]
    that carries its message; (3) once every selected device has been
    processed, the service raises the [HomeAssistantError] that points to
    the logs exactly when no [set] returned a true result, and returns
    otherwise. *)
Theorem set_parameter_errors :
  (forall device devices results l,
     set_caught device ->
     set_parameter_loop (device :: devices) results l
     = set_parameter_loop devices results (l ++ [not_found_record]))
  /\ (forall before device after l msg,
        Forall set_passed before ->
        device_set device name value = Raise (ValueError msg) ->
        (async_set_parameter_service (before ++ device :: after) l).1
        = Raise (HomeAssistantError ("Couldn't set parameter: " +:+ msg)))
  /\ (forall devices l,
        Forall set_passed devices ->
        let failed :=
          HomeAssistantError
            ("Couldn't set parameter '" +:+ name
             +:+ "', please check logs for more info") in
        ((async_set_parameter_service devices l).1 = Raise failed
         <-> ~ Exists set_succeeded devices)
        /\ (Exists set_succeeded devices ->
            (async_set_parameter_service devices l).1 = Ok tt)).
Proof.
  split; [|split].
  - intros device devices results l Hc. simpl. unfold bind at 1.
    by rewrite (set_parameter_for_caught _ _ _ Hc).
  - intros before device after l msg Hall Hraise.
    unfold Services.async_set_parameter_service. unfold bind at 1.
    destruct (set_parameter_loop_prefix before (device :: after) ∅ l Hall)
      as (results' & l' & ->).
    simpl. unfold bind at 1.
    by rewrite (set_parameter_for_value_error _ _ _ _ Hraise).
  - intros devices l Hall failed.
    unfold Services.async_set_parameter_service, bind.
    destruct (set_parameter_loop_passed devices ∅ l Hall)
      as (results' & l' & -> & Hin).
    unfold any_bool. rewrite elem_of_empty in Hin.
    destruct (decide (true ∈ results')) as [Hyes | Hno].
    + rewrite (bool_decide_eq_true_2 _ Hyes). simpl.
      split; [split; [discriminate | tauto] | done].
    + rewrite (bool_decide_eq_false_2 _ Hno). simpl.
      split; [split; [tauto | done] | tauto].
Qed.
End SetParameter.

Lemma set_parameter_errors_witness :
  let name := "heating_target_temp" in
  Services.set_parameter_loop Z Z name 60 [mixer; ecomax] ∅ []
  = Services.set_parameter_loop Z Z name 60 [ecomax] ∅
      [LogRecord EXCEPTION "Requested parameter %s not found" [ArgStr name]]
  /\ (Services.async_set_parameter_service Z Z name 60
        [mixer; strict_ecomax; ecomax] []).1
     = Raise (HomeAssistantError
                "Couldn't set parameter: Value is out of range")
  /\ (Services.async_set_parameter_service Z Z name 60 [mixer; ecomax] []).1
     = Ok tt.
Proof.
  intros name.
  destruct (set_parameter_errors Z Z name 60) as (Hskip & Hvalue & Hany).
  assert (Services.set_caught Z Z name 60 mixer) as Hmixer
    by (right; reflexivity).
  assert (Services.set_passed Z Z name 60 ecomax) as Hecomax
    by (left; exists true; reflexivity).
  split; [exact (Hskip mixer [ecomax] ∅ [] Hmixer)|]. split.
  - apply (Hvalue [mixer] strict_ecomax [ecomax] []).
    + constructor; [by right | constructor].
    + reflexivity.
  - apply (Hany [mixer; ecomax] []).
    + constructor; [by right|]. constructor; [exact Hecomax | constructor].
    + apply Exists_cons. right. apply Exists_cons. left. reflexivity.
Defined.

Section GetParameter.
Import Services.
Variables V SV : Type.
Variable name : string.

Notation "'get_parameter_for'" :=
  (Services.get_parameter_for V SV name) (only parsing).
Notation "'get_parameter_loop'" :=
  (Services.get_parameter_loop V SV name) (only parsing).
Notation "'async_get_parameter_service'" :=
  (Services.async_get_parameter_service V SV name) (only parsing).
Notation "'not_found_record'" :=
  (LogRecord EXCEPTION "Requested parameter %s not found" [ArgStr name])
  (only parsing).
Notation "'get_caught'" := (Services.get_caught V SV name).
Notation "'get_retrieved'" := (Services.get_retrieved V SV name).
Notation "'product_known'" := (Services.product_known V SV).

Lemma get_parameter_for_caught device parameters l :
  get_caught device ->
  get_parameter_for parameters device l
  = (Ok parameters, l ++ [not_found_record]).
Proof.
  unfold Services.get_parameter_for, try_except, bind, await.
  by intros [-> | ->].
Qed.

(** A parameter of a device with a known product gives one record, which
    is not empty, at the end of the list; nothing is logged. *)
Lemma get_parameter_for_retrieved device parameters l :
  get_retrieved device -> product_known device ->
  exists data : dict string (pyval V),
    get_parameter_for parameters device l = (Ok (parameters ++ [data]), l)
    /\ dict_truthy data = true.
Proof.
  intros [parameter Hget] [p Hp].
  unfold Services.get_parameter_for, try_except, bind, await, ret.
  rewrite Hget, Hp. simpl.
  eexists. split; [reflexivity|]. by destruct (index device).
Qed.

(** A parameter of a device without a known product: the record is not
    built, and the [AttributeError] of [product.uid] leaves the loop. *)
Lemma get_parameter_for_unknown_product device parameters l :
  get_retrieved device -> ~ product_known device ->
  get_parameter_for parameters device l = (Raise AttributeError, l).
Proof.
  intros [parameter Hget] Hp.
  unfold Services.get_parameter_for, try_except, bind, await, ret.
  rewrite Hget.
  destruct (product_of V SV device) as [p | s] eqn:Hproduct; [|done].
  exfalso. apply Hp. by exists p.
Qed.

(** What C4 says holds as long as the product of every device that gives
    the parameter is known: the caught exceptions are logged and the
    device is passed over; the service raises its [HomeAssistantError]
    exactly when no device gave the parameter, and returns the records
    otherwise. *)
Lemma get_parameter_loop_products_known devices parameters l :
  Forall (fun device =>
            get_caught device
            \/ (get_retrieved device /\ product_known device)) devices ->
  exists (parameters' : list (dict string (pyval V))) (l' : list log_record),
    get_parameter_loop devices parameters l = (Ok parameters', l')
    /\ (any_dict V parameters' = true
        <-> any_dict V parameters = true \/ Exists get_retrieved devices).
Proof.
  intros Hall. revert parameters l.
  induction Hall as [|device devices Hd _ IH]; intros parameters l.
  - exists parameters, l. split; [done|]. rewrite Exists_nil. tauto.
  - simpl. unfold bind at 1. destruct Hd as [Hc | [Hr Hp]].
    + rewrite (get_parameter_for_caught _ _ _ Hc).
      destruct (IH parameters (l ++ [not_found_record]))
        as (parameters' & l' & -> & Hany).
      exists parameters', l'. split; [done|].
      rewrite Hany, Exists_cons.
      assert (~ get_retrieved device) as Hnot.
      { intros [parameter Hget]. destruct Hc as [Hc | Hc]; congruence. }
      tauto.
    + destruct (get_parameter_for_retrieved _ parameters l Hr Hp)
        as (data & -> & Hdata).
      destruct (IH (parameters ++ [data]) l) as (parameters' & l' & -> & Hany).
      exists parameters', l'. split; [done|].
      rewrite Hany, Exists_cons. unfold any_dict.
      rewrite existsb_app. simpl. rewrite Hdata, orb_true_r. tauto.
Qed.

Lemma get_parameter_products_known devices l :
  Forall (fun device =>
            get_caught device
            \/ (get_retrieved device /\ product_known device)) devices ->
  let failed :=
    HomeAssistantError
      ("Couldn't get " +:+ name +:+ " parameter, check logs for more info") in
  ((async_get_parameter_service devices l).1 = Raise failed
   <-> ~ Exists get_retrieved devices)
  /\ (Exists get_retrieved devices ->
      exists parameters : list (dict string (pyval V)),
        (async_get_parameter_service devices l).1
        = Ok ("parameters", parameters)).
Proof.
  intros Hall failed.
  unfold Services.async_get_parameter_service, bind.
  destruct (get_parameter_loop_products_known devices [] l Hall)
    as (parameters' & l' & -> & Hany).
  assert (any_dict V [] = true <-> False) as Hnil by (simpl; split; done).
  rewrite Hnil in Hany.
  destruct (any_dict V parameters') eqn:Hfound; simpl.
  - split; [split; [discriminate | tauto] | eauto].
  - split; [split; [intros _ | done] | ].
    + intros Hex. assert (false = true) by tauto. discriminate.
    + intros Hex. assert (false = true) by tauto. discriminate.
Qed.
End GetParameter.

(** The service on a mixer that times out and its controller: one record
    is logged, one is returned. *)
Example get_parameter_run :
  Services.async_get_parameter_service Z Z "heating_target_temp"
    [mixer; ecomax] []
  = (Ok ("parameters",
         [[("name", Services.PyStr "heating_target_temp");
           ("value", Services.PyNum 50);
           ("min_value", Services.PyNum 30);
           ("max_value", Services.PyNum 80);
           ("device_type", Services.PyStr "ecomax");
           ("device_uid", Services.PyStr "D251PAKR3GCPZ1K8G05G0")]]),
     [LogRecord EXCEPTION "Requested parameter %s not found"
        [ArgStr "heating_target_temp"]]).
Proof. reflexivity. Qed.

(** C4 at a device that gives the parameter but has no product
    information: [get_nowait] falls back on the string "unknown", reading
    its [uid] raises [AttributeError], which the service does not catch.
    The service ends with this exception: it neither returns the record
    that was retrieved nor raises a [HomeAssistantError]. *)
Theorem get_parameter_unknown_product :
  Services.get_retrieved Z Z "heating_target_temp" ecomax_without_product
  /\ Services.async_get_parameter_service Z Z "heating_target_temp"
       [ecomax_without_product] []
     = (Raise AttributeError, []).
Proof. split; [by exists sample_parameter | reflexivity]. Qed.

(* ===================================================================== *)
(** * Further properties                                                  *)
(* ===================================================================== *)

(** ** climate.py: preset updates *)

Section PresetUpdates.
Import Climate ClimateEntity.
Variable V : Type.
Variable py_eq : V -> V -> bool.
Variable py_int : V -> result Z.
Variable device : Thermostat V.

Notation "'py_ne'" := (Climate.py_ne V py_eq) (only parsing).
Notation "'async_update_preset_mode'" :=
  (Climate.async_update_preset_mode V py_eq py_int device) (only parsing).
Notation "'update_attributes'" :=
  (Climate._async_update_target_temperature_attributes V py_eq device)
  (only parsing).
Notation "'target_name'" :=
  (fun w : World V => _attr_target_temperature_name V (attrs V w))
  (only parsing).

Lemma EM_TO_HA_MODE_cases (mode : Z) (preset : string) :
  dict_get mode EM_TO_HA_MODE = Some preset ->
  (mode = 0 /\ preset = PRESET_SCHEDULE) \/ (mode = 1 /\ preset = PRESET_ECO)
  \/ (mode = 2 /\ preset = PRESET_COMFORT) \/ (mode = 3 /\ preset = PRESET_AWAY)
  \/ (mode = 4 /\ preset = PRESET_AIRING) \/ (mode = 5 /\ preset = PRESET_PARTY)
  \/ (mode = 6 /\ preset = PRESET_HOLIDAYS)
  \/ (mode = 7 /\ preset = PRESET_ANTIFREEZE).
Proof.
  change EM_TO_HA_MODE with
    [(0, PRESET_SCHEDULE); (1, PRESET_ECO); (2, PRESET_COMFORT);
     (3, PRESET_AWAY); (4, PRESET_AIRING); (5, PRESET_PARTY);
     (6, PRESET_HOLIDAYS); (7, PRESET_ANTIFREEZE)].
  simpl. repeat case_decide; intros [= <-]; subst; tauto.
Qed.

Lemma HA_PRESET_TO_EM_TEMP_cases (preset name : string) :
  dict_get preset HA_PRESET_TO_EM_TEMP = Some name ->
  preset = PRESET_ECO \/ preset = PRESET_COMFORT \/ preset = PRESET_AWAY
  \/ preset = PRESET_PARTY \/ preset = PRESET_HOLIDAYS
  \/ preset = PRESET_ANTIFREEZE.
Proof.
  change HA_PRESET_TO_EM_TEMP with
    [(PRESET_ECO, "night_target_temp"); (PRESET_COMFORT, "day_target_temp");
     (PRESET_AWAY, "night_target_temp"); (PRESET_PARTY, "party_target_temp");
     (PRESET_HOLIDAYS, "holidays_target_temp");
     (PRESET_ANTIFREEZE, "antifreeze_target_temp")].
  simpl. repeat case_decide; intros [= <-]; subst; tauto.
Qed.

(** A preset with a temperature of its own: the attributes follow the
    parameter of that temperature. *)
Lemma update_attributes_own_temperature
    (target_temp : option V) (w : World V) (preset name : string) :
  _attr_preset_mode V (attrs V w) = Some preset ->
  dict_get preset HA_PRESET_TO_EM_TEMP = Some name ->
  update_attributes target_temp w
  = if bool_decide (target_name w = Some name) then (Ok tt, w)
    else match get_parameter V device name with
         | Ok parameter =>
             (Ok tt, set_target_temperature_attributes V name parameter w)
         | Raise e => (Raise e, w)
         end.
Proof.
  intros Hpreset Hname.
  unfold Climate._async_update_target_temperature_attributes,
    bind, gets, await, ret, modify, dict_subscript.
  rewrite Hpreset.
  assert (bool_decide (Some preset = Some PRESET_SCHEDULE) = false
          /\ is_airing_or_unknown (Some preset) = false) as [-> ->].
  { destruct (HA_PRESET_TO_EM_TEMP_cases _ _ Hname)
      as [->|[->|[->|[->|[->| ->]]]]]; split; reflexivity. }
  rewrite Hname. cbv beta iota.
  case_bool_decide; [done|]. by destruct (get_parameter V device name).
Qed.

(** The preset [async_update_preset_mode] stores for a known mode. *)
Lemma update_preset_mode_known (mode : Z) (preset : string) (w : World V) :
  dict_get mode EM_TO_HA_MODE = Some preset ->
  async_update_preset_mode (ModeInt V mode) w
  = match update_attributes None (set_preset_mode V preset w) with
    | (Ok _, w') => (Ok tt, written V w')
    | (Raise e, w') => (Raise e, w')
    end.
Proof.
  intros Hmode.
  unfold Climate.async_update_preset_mode, bind, ret. rewrite Hmode.
  unfold modify at 1.
  destruct (update_attributes None (set_preset_mode V preset w))
    as [[[]|e] w']; reflexivity.
Qed.

(** X1. A mode whose preset has a temperature of its own (eco, comfort,
    away, party, holidays, antifreeze): the entity takes the preset, names
    the parameter of that temperature as its target with the bounds the
    device gives for it, and writes its state once. When the parameter is
    the target already, the device is not asked and the bounds stay. *)
Theorem update_preset_mode_retargets
    (mode : Z) (preset name : string) (parameter : ThermostatParameter V)
    (w : World V) :
  dict_get mode EM_TO_HA_MODE = Some preset ->
  dict_get preset HA_PRESET_TO_EM_TEMP = Some name ->
  target_name w = Some name \/ get_parameter V device name = Ok parameter ->
  async_update_preset_mode (ModeInt V mode) w
  = (Ok tt, written V (retarget V name parameter (set_preset_mode V preset w))).
Proof.
  intros Hmode Hname Hdevice.
  rewrite (update_preset_mode_known _ _ _ Hmode).
  rewrite (update_attributes_own_temperature None _ preset name);
    [|reflexivity|exact Hname].
  unfold retarget. simpl. case_bool_decide as Hsame; [done|].
  destruct Hdevice as [Hsame' | ->]; [by destruct Hsame | done].
Qed.

(** X2. When the device fails to give the parameter of the new preset, the
    exception leaves [async_update_preset_mode] after the preset has been
    stored: the preset is the new one, the target parameter and its bounds
    are the old ones, and no state is written. *)
Theorem update_preset_mode_device_failure
    (mode : Z) (preset name : string) (e : exn) (w : World V) :
  dict_get mode EM_TO_HA_MODE = Some preset ->
  dict_get preset HA_PRESET_TO_EM_TEMP = Some name ->
  target_name w <> Some name ->
  get_parameter V device name = Raise e ->
  async_update_preset_mode (ModeInt V mode) w
  = (Raise e, set_preset_mode V preset w).
Proof.
  intros Hmode Hname Hother Hraise.
  rewrite (update_preset_mode_known _ _ _ Hmode).
  rewrite (update_attributes_own_temperature None _ preset name);
    [|reflexivity|exact Hname].
  simpl. rewrite bool_decide_eq_false_2 by done. by rewrite Hraise.
Qed.

(** The airing mode has no temperature: the entity takes the preset and
    writes its state; target parameter and bounds stay, and the device is
    not asked, whatever it would answer. *)
Lemma update_preset_mode_airing (w : World V) :
  async_update_preset_mode (ModeInt V 4) w
  = (Ok tt, written V (set_preset_mode V PRESET_AIRING w)).
Proof. reflexivity. Qed.

(** The preset the heuristic settles on for target [t], given the comfort
    and eco parameters. *)
Notation "'settled_preset'" :=
  (fun (t : V) (comfort eco : ThermostatParameter V) =>
     if py_eq t (value V eco) && py_ne t (value V comfort) then PRESET_ECO
     else if py_eq t (value V comfort) && py_ne t (value V eco)
          then PRESET_COMFORT else PRESET_UNKNOWN)
  (only parsing).

Lemma schedule_preset_run
    (target_temp : option V) (t : V) (comfort eco : ThermostatParameter V)
    (w : World V) :
  match target_temp with
  | Some given => given = t
  | None => get_sensor V device "target_temp" = Ok t
  end ->
  get_parameter V device "day_target_temp" = Ok comfort ->
  get_parameter V device "night_target_temp" = Ok eco ->
  Climate._async_get_current_schedule_preset V py_eq device target_temp w
  = (Ok (settled_preset t comfort eco), w).
Proof using Type.
  intros Ht Hc He.
  unfold Climate._async_get_current_schedule_preset, bind, await, ret.
  destruct target_temp as [given|]; [subst given | rewrite Ht];
    change (dict_subscript PRESET_COMFORT HA_PRESET_TO_EM_TEMP)
      with (Ok "day_target_temp" : result string);
    change (dict_subscript PRESET_ECO HA_PRESET_TO_EM_TEMP)
      with (Ok "night_target_temp" : result string);
    cbv beta iota; rewrite Hc, He; reflexivity.
Qed.

(** In schedule mode the attributes follow the preset the heuristic
    settles on. *)
Lemma update_attributes_schedule
    (target_temp : option V) (t : V) (comfort eco : ThermostatParameter V)
    (w : World V) :
  _attr_preset_mode V (attrs V w) = Some PRESET_SCHEDULE ->
  match target_temp with
  | Some given => given = t
  | None => get_sensor V device "target_temp" = Ok t
  end ->
  get_parameter V device "day_target_temp" = Ok comfort ->
  get_parameter V device "night_target_temp" = Ok eco ->
  update_attributes target_temp w
  = (Ok tt,
     if py_eq t (value V comfort) && py_ne t (value V eco)
     then retarget V "day_target_temp" comfort w
     else if py_eq t (value V eco) && py_ne t (value V comfort)
          then retarget V "night_target_temp" eco w
          else w).
Proof using Type.
  intros Hpreset Ht Hc He.
  unfold Climate._async_update_target_temperature_attributes.
  unfold bind at 1, gets at 1. rewrite Hpreset.
  rewrite bool_decide_eq_true_2 by done.
  unfold bind at 1 2. rewrite (schedule_preset_run _ _ _ _ _ Ht Hc He).
  unfold ret at 1, Climate.py_ne, retarget.
  destruct (py_eq t (value V comfort)), (py_eq t (value V eco)); simpl;
    unfold bind, gets, await, ret, modify; simpl;
    try reflexivity;
    case_bool_decide; try reflexivity; rewrite ?Hc, ?He; reflexivity.
Qed.

(** X3. In schedule mode (mode 0) the target parameter follows the target
    temperature of the device: the comfort parameter when the target
    equals the comfort value and not the eco value, the eco parameter when
    it equals the eco value and not the comfort value; in any other case
    the target parameter and its bounds stay as they were. The state is
    written in all three cases. *)
Theorem update_preset_mode_schedule
    (t : V) (comfort eco : ThermostatParameter V) (w : World V) :
  get_sensor V device "target_temp" = Ok t ->
  get_parameter V device "day_target_temp" = Ok comfort ->
  get_parameter V device "night_target_temp" = Ok eco ->
  let w1 := set_preset_mode V PRESET_SCHEDULE w in
  async_update_preset_mode (ModeInt V 0) w
  = (Ok tt,
     written V
       (if py_eq t (value V comfort) && py_ne t (value V eco)
        then retarget V "day_target_temp" comfort w1
        else if py_eq t (value V eco) && py_ne t (value V comfort)
             then retarget V "night_target_temp" eco w1
             else w1)).
Proof.
  intros Ht Hc He w1.
  rewrite (update_preset_mode_known 0 PRESET_SCHEDULE) by reflexivity.
  by rewrite (update_attributes_schedule None t comfort eco);
    [|reflexivity|exact Ht|exact Hc|exact He].
Qed.

(** The heuristic reads the device and changes nothing. *)
Lemma schedule_preset_reads_only (target_temp : option V) (w : World V) :
  (Climate._async_get_current_schedule_preset V py_eq device target_temp w).2
  = w.
Proof using Type.
  unfold Climate._async_get_current_schedule_preset, bind, await, ret.
  change (dict_subscript PRESET_COMFORT HA_PRESET_TO_EM_TEMP)
    with (Ok "day_target_temp" : result string).
  change (dict_subscript PRESET_ECO HA_PRESET_TO_EM_TEMP)
    with (Ok "night_target_temp" : result string).
  destruct target_temp as [given|]; cbv beta iota;
    repeat case_match; simplify_eq; reflexivity.
Qed.

(** All that [_async_update_target_temperature_attributes] can do to the
    entity: nothing, or name a parameter of [HA_PRESET_TO_EM_TEMP] that the
    device has just given, with its bounds. *)
Lemma update_attributes_effect
    (target_temp : option V) (w w' : World V) (r : result unit) :
  update_attributes target_temp w = (r, w') ->
  w' = w
  \/ exists (preset name : string) (parameter : ThermostatParameter V),
       dict_get preset HA_PRESET_TO_EM_TEMP = Some name
       /\ get_parameter V device name = Ok parameter
       /\ r = Ok tt
       /\ w' = set_target_temperature_attributes V name parameter w.
Proof using Type.
  unfold Climate._async_update_target_temperature_attributes.
  unfold bind at 1, gets at 1.
  unfold bind at 1.
  assert (forall p : option string,
            (if is_airing_or_unknown p
             then Py.ret tt
             else Py.bind
                    (match p with
                     | Some p0 => await (dict_subscript p0 HA_PRESET_TO_EM_TEMP)
                     | None => raise KeyError
                     end)
                    (fun target_temperature_name =>
                       Py.bind (gets (fun w0 : World V => target_name w0))
                         (fun current_name =>
                            if bool_decide
                                 (current_name = Some target_temperature_name)
                            then Py.ret tt
                            else Py.bind
                                   (await (get_parameter V device
                                             target_temperature_name))
                                   (fun parameter =>
                                      modify
                                        (set_target_temperature_attributes V
                                           target_temperature_name
                                           parameter))))) w = (r, w') ->
            w' = w
            \/ exists (preset name : string)
                 (parameter : ThermostatParameter V),
                 dict_get preset HA_PRESET_TO_EM_TEMP = Some name
                 /\ get_parameter V device name = Ok parameter
                 /\ r = Ok tt
                 /\ w' = set_target_temperature_attributes V name parameter w)
    as Hrest.
  { intros p. destruct (is_airing_or_unknown p).
    { intros [= <- <-]. by left. }
    unfold bind, await, gets, modify, ret, raise, dict_subscript.
    destruct p as [p|]; [|intros [= <- <-]; by left].
    destruct (dict_get p HA_PRESET_TO_EM_TEMP) as [name|] eqn:Hname;
      [|intros [= <- <-]; by left].
    case_bool_decide; [intros [= <- <-]; by left|].
    destruct (get_parameter V device name) as [parameter|e] eqn:Hget;
      intros [= <- <-]; [|by left].
    right. by exists p, name, parameter. }
  destruct (bool_decide (_attr_preset_mode V (attrs V w) = Some PRESET_SCHEDULE)).
  - unfold bind at 1.
    pose proof (schedule_preset_reads_only target_temp w) as Hsame.
    destruct (Climate._async_get_current_schedule_preset V py_eq device
                target_temp w) as [[p|e] w0]; simpl in Hsame; subst w0.
    + unfold ret at 1. apply Hrest.
    + intros [= <- <-]. by left.
  - unfold ret at 1. apply Hrest.
Qed.

Lemma bounds_belong_set_preset_mode (preset : string) (w : World V) :
  bounds_belong_to_target V device w ->
  bounds_belong_to_target V device (set_preset_mode V preset w).
Proof using Type. done. Qed.

Lemma bounds_belong_update_attributes (target_temp : option V) (w : World V) :
  bounds_belong_to_target V device w ->
  bounds_belong_to_target V device (update_attributes target_temp w).2.
Proof using Type.
  intros Hw.
  destruct (update_attributes target_temp w) as [r w'] eqn:Hrun.
  destruct (update_attributes_effect _ _ _ _ Hrun)
    as [-> | (preset & name & parameter & Hname & Hget & _ & ->)]; [done|].
  unfold bounds_belong_to_target. simpl. split; [by exists preset|].
  by exists parameter.
Qed.

(** X4. Whatever mode the device reports and however the update ends, the
    entity keeps its bounds in line with its target: the minimum and
    maximum temperature are those the device gives for the parameter that
    the entity names as its target, and that parameter is one of
    [HA_PRESET_TO_EM_TEMP]. *)
Theorem update_preset_mode_keeps_bounds (arg : mode_arg V) (w : World V) :
  bounds_belong_to_target V device w ->
  bounds_belong_to_target V device (async_update_preset_mode arg w).2.
Proof.
  intros Hw.
  unfold Climate.async_update_preset_mode.
  unfold bind at 1.
  assert (forall mode : Z,
            bounds_belong_to_target V device
              (match dict_get mode EM_TO_HA_MODE with
               | Some preset_mode =>
                   Py.bind (modify (set_preset_mode V preset_mode))
                     (fun _ =>
                        Py.bind (update_attributes None)
                          (fun _ => async_write_ha_state V))
               | None =>
                   modify (logger_error V "Unknown climate preset %d."
                             [ArgInt mode])
               end w).2) as Hmode.
  { intros mode. destruct (dict_get mode EM_TO_HA_MODE) as [preset|];
      [|done].
    unfold bind at 1, modify at 1. unfold bind at 1.
    pose proof (bounds_belong_update_attributes None
                  (set_preset_mode V preset w)
                  (bounds_belong_set_preset_mode preset w Hw)) as Hkept.
    destruct (update_attributes None (set_preset_mode V preset w))
      as [[[]|e] w']; exact Hkept. }
  destruct arg as [mode|p]; unfold ret, await.
  - apply Hmode.
  - destruct (py_int (value V p)) as [mode|e]; [apply Hmode | exact Hw].
Qed.

Notation "'finish_update'" := (ClimateEntity.finish_update V device).

Lemma update_attributes_unfold (target_temp : option V) (w : World V) :
  update_attributes target_temp w
  = if bool_decide (_attr_preset_mode V (attrs V w) = Some PRESET_SCHEDULE)
    then match Climate._async_get_current_schedule_preset V py_eq device
                 target_temp w with
         | (Ok p, w1) => finish_update (Some p) w1
         | (Raise e, w1) => (Raise e, w1)
         end
    else finish_update (_attr_preset_mode V (attrs V w)) w.
Proof using Type.
  unfold Climate._async_update_target_temperature_attributes,
    ClimateEntity.finish_update.
  unfold bind at 1, gets at 1. unfold bind at 1.
  case_bool_decide; [|reflexivity].
  unfold bind at 1.
  by destruct (Climate._async_get_current_schedule_preset V py_eq device
                 target_temp w) as [[p|e] w1].
Qed.

Lemma finish_update_settles (p : option string) (w w0 : World V) :
  finish_update p w = (Ok tt, w0) ->
  _attr_preset_mode V (attrs V w0) = _attr_preset_mode V (attrs V w)
  /\ finish_update p (written V w0) = (Ok tt, written V w0).
Proof using Type.
  unfold ClimateEntity.finish_update.
  destruct (is_airing_or_unknown p) eqn:Hp.
  { unfold ret. intros Hrun. injection Hrun as <-. done. }
  unfold bind, await, gets, modify, ret, raise, dict_subscript.
  destruct p as [p|]; [|discriminate].
  destruct (dict_get p HA_PRESET_TO_EM_TEMP) as [name|]; [|discriminate].
  case_bool_decide as Hname.
  - intros Hrun. injection Hrun as <-. split; [done|]. simpl.
    by rewrite bool_decide_eq_true_2.
  - destruct (get_parameter V device name) as [parameter|e]; [|discriminate].
    intros Hrun. injection Hrun as <-. split; [done|]. simpl.
    by rewrite bool_decide_eq_true_2.
Qed.

Lemma schedule_preset_any_state (target_temp : option V) (w w' : World V) :
  (Climate._async_get_current_schedule_preset V py_eq device target_temp w).1
  = (Climate._async_get_current_schedule_preset V py_eq device target_temp
       w').1.
Proof using Type.
  unfold Climate._async_get_current_schedule_preset, bind, await, ret.
  change (dict_subscript PRESET_COMFORT HA_PRESET_TO_EM_TEMP)
    with (Ok "day_target_temp" : result string).
  change (dict_subscript PRESET_ECO HA_PRESET_TO_EM_TEMP)
    with (Ok "night_target_temp" : result string).
  destruct target_temp as [given|]; cbv beta iota;
    repeat case_match; simplify_eq; reflexivity.
Qed.

Lemma update_attributes_settles
    (target_temp : option V) (w w0 : World V) :
  update_attributes target_temp w = (Ok tt, w0) ->
  _attr_preset_mode V (attrs V w0) = _attr_preset_mode V (attrs V w)
  /\ update_attributes target_temp (written V w0) = (Ok tt, written V w0).
Proof using Type.
  rewrite !update_attributes_unfold.
  change (_attr_preset_mode V (attrs V (written V w0)))
    with (_attr_preset_mode V (attrs V w0)).
  case_bool_decide as Hschedule.
  - pose proof (schedule_preset_reads_only target_temp w) as Hsame.
    pose proof (schedule_preset_any_state target_temp w (written V w0)) as Hres.
    pose proof (schedule_preset_reads_only target_temp (written V w0)) as Hsame'.
    destruct (Climate._async_get_current_schedule_preset V py_eq device
                target_temp w) as [[p|e] w1]; simpl in Hsame, Hres; subst w1;
      [|discriminate].
    intros Hrun.
    destruct (finish_update_settles (Some p) w w0 Hrun) as [Hpreset Hagain].
    split; [exact Hpreset|].
    rewrite Hpreset, bool_decide_eq_true_2 by done.
    destruct (Climate._async_get_current_schedule_preset V py_eq device
                target_temp (written V w0)) as [r w2].
    simpl in Hres, Hsame'. subst r w2. exact Hagain.
  - intros Hrun.
    destruct (finish_update_settles _ w w0 Hrun) as [Hpreset Hagain].
    split; [exact Hpreset|].
    rewrite Hpreset, bool_decide_eq_false_2 by done. exact Hagain.
Qed.

End PresetUpdates.

(** ** climate.py: the other callbacks *)

Section EntityCallbacks.
Import Climate ClimateEntity.
Variable V : Type.
Variable py_eq : V -> V -> bool.
Variable py_int : V -> result Z.
Variable device : Thermostat V.
Variable ATTR_MODE : string.

Notation "'py_ne'" := (Climate.py_ne V py_eq) (only parsing).
Notation "'async_set_preset_mode'" :=
  (ClimateEntity.async_set_preset_mode V py_eq device ATTR_MODE)
  (only parsing).
Notation "'async_update_target_temperature'" :=
  (ClimateEntity.async_update_target_temperature V py_eq device)
  (only parsing).
Notation "'async_update_preset_mode'" :=
  (Climate.async_update_preset_mode V py_eq py_int device) (only parsing).
Notation "'update_attributes'" :=
  (Climate._async_update_target_temperature_attributes V py_eq device)
  (only parsing).

Lemma zoom_run {A : Type} (c : M (World V) A) (e : Entity V) :
  zoom V c e = ((c (world V e)).1, with_world V (c (world V e)).2 e).
Proof. unfold zoom. by destruct (c (world V e)). Qed.

Lemma HA_TO_EM_MODE_cases (preset : string) (mode : Z) :
  dict_get preset HA_TO_EM_MODE = Some mode ->
  (preset = PRESET_SCHEDULE /\ mode = 0) \/ (preset = PRESET_ECO /\ mode = 1)
  \/ (preset = PRESET_COMFORT /\ mode = 2) \/ (preset = PRESET_AWAY /\ mode = 3)
  \/ (preset = PRESET_AIRING /\ mode = 4) \/ (preset = PRESET_PARTY /\ mode = 5)
  \/ (preset = PRESET_HOLIDAYS /\ mode = 6)
  \/ (preset = PRESET_ANTIFREEZE /\ mode = 7).
Proof.
  change HA_TO_EM_MODE with
    [(PRESET_SCHEDULE, 0); (PRESET_ECO, 1); (PRESET_COMFORT, 2);
     (PRESET_AWAY, 3); (PRESET_AIRING, 4); (PRESET_PARTY, 5);
     (PRESET_HOLIDAYS, 6); (PRESET_ANTIFREEZE, 7)].
  simpl. repeat case_decide; intros [= <-]; subst; tauto.
Qed.

Lemma HA_TO_EM_MODE_inverse (preset : string) (mode : Z) :
  dict_get preset HA_TO_EM_MODE = Some mode ->
  dict_get mode EM_TO_HA_MODE = Some preset.
Proof.
  intros Hcode.
  destruct (HA_TO_EM_MODE_cases _ _ Hcode)
    as [[-> ->]|[[-> ->]|[[-> ->]|[[-> ->]|[[-> ->]|[[-> ->]|[[-> ->]|[-> ->]]]]]]]];
    reflexivity.
Qed.

(** X6. A preset name that is not one of the eight preset modes makes
    [async_set_preset_mode] raise [KeyError] at once: nothing is sent to
    the device and the entity is as it was. *)
Theorem set_preset_mode_unknown_name (preset_mode : string) (e : Entity V) :
  preset_mode ∉ CLIMATE_MODES ->
  async_set_preset_mode preset_mode e = (Raise KeyError, e).
Proof using Type.
  intros Hp. rewrite <- HA_TO_EM_MODE_keys in Hp.
  apply dict_get_None in Hp.
  unfold ClimateEntity.async_set_preset_mode, bind, await, dict_subscript.
  by rewrite Hp.
Qed.

(** X7. Setting one of the eight preset modes sends its mode code to the
    device under [ATTR_MODE], and then does to the entity exactly what
    [async_update_preset_mode] does when the device reports that code. The
    code is sent first: it has gone out even when the update then fails. *)
Theorem set_preset_mode_sends_code
    (preset_mode : string) (mode : Z) (e : Entity V) :
  dict_get preset_mode HA_TO_EM_MODE = Some mode ->
  let sent := with_call V ATTR_MODE (SentInt mode) e in
  dict_get mode EM_TO_HA_MODE = Some preset_mode
  /\ async_set_preset_mode preset_mode e
     = zoom V (async_update_preset_mode (ModeInt V mode)) sent
  /\ set_nowait_calls V (async_set_preset_mode preset_mode e).2
     = set_nowait_calls V e ++ [(ATTR_MODE, SentInt mode)].
Proof.
  intros Hcode sent. pose proof (HA_TO_EM_MODE_inverse _ _ Hcode) as Hmode.
  split; [exact Hmode|].
  assert (async_set_preset_mode preset_mode e
          = zoom V (async_update_preset_mode (ModeInt V mode)) sent) as Hsame.
  { rewrite zoom_run.
    rewrite (update_preset_mode_known V py_eq py_int device _ _ _ Hmode).
    unfold ClimateEntity.async_set_preset_mode, bind, await, dict_subscript.
    rewrite Hcode. unfold set_nowait at 1, modify at 1.
    rewrite !zoom_run. unfold modify at 1 2. simpl.
    change (world V sent) with (world V e).
    destruct (update_attributes None (set_preset_mode V preset_mode (world V e)))
      as [[[]|x] w']; reflexivity. }
  split; [exact Hsame|].
  rewrite Hsame, zoom_run. reflexivity.
Qed.

(** X8. In schedule mode a target temperature pushed by the device is the
    one the heuristic works with: the entity stores it, takes the comfort
    parameter as target when it equals the comfort value and not the eco
    value, the eco parameter in the mirrored case, keeps its target
    otherwise, and writes its state. The [target_temp] sensor is not read,
    whatever reading it would give. *)
Theorem pushed_target_temperature_in_schedule_mode
    (value : V) (comfort eco : ThermostatParameter V) (e : Entity V) :
  _attr_preset_mode V (attrs V (world V e)) = Some PRESET_SCHEDULE ->
  get_parameter V device "day_target_temp" = Ok comfort ->
  get_parameter V device "night_target_temp" = Ok eco ->
  let w := world V e in
  async_update_target_temperature value e
  = (Ok tt,
     with_world V
       (written V
          (if py_eq value (Climate.value V comfort)
              && py_ne value (Climate.value V eco)
           then retarget V "day_target_temp" comfort w
           else if py_eq value (Climate.value V eco)
                   && py_ne value (Climate.value V comfort)
                then retarget V "night_target_temp" eco w
                else w))
       (set_target_temperature V value e)).
Proof using Type.
  intros Hpreset Hc He w.
  unfold ClimateEntity.async_update_target_temperature.
  unfold bind at 1, modify at 1. unfold bind at 1.
  rewrite zoom_run.
  change (world V (set_target_temperature V value e)) with w.
  rewrite (update_attributes_schedule V py_eq device (Some value) value
             comfort eco w Hpreset eq_refl Hc He).
  simpl. by rewrite zoom_run.
Qed.
End EntityCallbacks.

(** ** services.py: the parameter services as a whole *)

Section ParameterServicesAsAWhole.
Import Services ServicesSpec.
Variables V SV : Type.
Variable name : string.
Variable value : SV.

Notation "'get_parameter_for'" :=
  (Services.get_parameter_for V SV name) (only parsing).
Notation "'get_parameter_loop'" :=
  (Services.get_parameter_loop V SV name) (only parsing).
Notation "'async_get_parameter_service'" :=
  (Services.async_get_parameter_service V SV name) (only parsing).
Notation "'set_parameter_loop'" :=
  (Services.set_parameter_loop V SV name value) (only parsing).
Notation "'async_set_parameter_service'" :=
  (Services.async_set_parameter_service V SV name value) (only parsing).
Notation "'not_found_record'" :=
  (LogRecord EXCEPTION "Requested parameter %s not found" [ArgStr name])
  (only parsing).
Notation "'get_caught'" := (Services.get_caught V SV name).
Notation "'get_retrieved'" := (Services.get_retrieved V SV name).
Notation "'product_known'" := (Services.product_known V SV).
Notation "'set_passed'" := (Services.set_passed V SV name value).
Notation "'record_of'" := (ServicesSpec.record_of V SV name).
Notation "'returned'" := (ServicesSpec.returned V SV name value).

(** Every device either is passed over or gives the parameter and has a
    known product. *)
Notation "'get_passed'" :=
  (fun device : Device V SV =>
     get_caught device \/ (get_retrieved device /\ product_known device))
  (only parsing).

Lemma omap_length_le {A B : Type} (f : A -> option B) (l : list A) :
  (length (omap f l) <= length l)%nat.
Proof. induction l as [|x l IH]; csimpl; [lia|]. destruct (f x); csimpl; lia. Qed.

Lemma get_parameter_for_record device parameters l :
  get_passed device ->
  get_parameter_for parameters device l
  = match record_of device with
    | Some data => (Ok (parameters ++ [data]), l)
    | None => (Ok parameters, l ++ [not_found_record])
    end.
Proof.
  unfold Services.get_parameter_for, ServicesSpec.record_of,
    try_except, bind, await, ret, modify, logger_exception.
  intros [[Hc | Hc] | [[parameter Hget] [p Hp]]].
  - by rewrite Hc.
  - by rewrite Hc.
  - rewrite Hget, Hp. simpl. unfold parameter_record.
    by destruct (index device).
Qed.

Lemma get_parameter_loop_records devices parameters l :
  Forall get_passed devices ->
  get_parameter_loop devices parameters l
  = (Ok (parameters ++ omap record_of devices),
     l ++ replicate (length devices - length (omap record_of devices))
            not_found_record).
Proof.
  intros Hall. revert parameters l.
  induction Hall as [|device devices Hd _ IH]; intros parameters l.
  - simpl. by rewrite !app_nil_r.
  - cbn [Services.get_parameter_loop]. unfold bind at 1.
    rewrite (get_parameter_for_record _ _ _ Hd).
    pose proof (omap_length_le record_of devices) as Hlen.
    csimpl. destruct (record_of device) as [data|]; rewrite IH; csimpl.
    + by rewrite <- app_assoc.
    + replace (S (length devices) - length (omap record_of devices))%nat
        with (S (length devices - length (omap record_of devices))) by lia.
      csimpl. by rewrite <- app_assoc.
Qed.

Lemma record_of_truthy device data :
  record_of device = Some data -> dict_truthy data = true.
Proof.
  unfold ServicesSpec.record_of.
  destruct (device_get device name); [|done].
  destruct (product_of V SV device); [|done].
  by intros [= <-].
Qed.

(** X9. When the product of every device that gives the parameter is
    known, [get_parameter] returns one record per answering device, in the
    order the devices are visited; the record holds the name, the value
    and its bounds, the lower-cased class name, the product identifier
    and, for a sub-device, its index plus one. Each device passed over adds
    one record to the log. Without any record the service raises its
    [HomeAssistantError]. *)
Theorem get_parameter_returns_records devices l :
  Forall get_passed devices ->
  let records := omap record_of devices in
  let l' :=
    l ++ replicate (length devices - length records) not_found_record in
  async_get_parameter_service devices l
  = match records with
    | [] =>
        (Raise (HomeAssistantError
                  ("Couldn't get " +:+ name
                   +:+ " parameter, check logs for more info")), l')
    | _ :: _ => (Ok ("parameters", records), l')
    end.
Proof.
  intros Hall records l'.
  unfold Services.async_get_parameter_service, bind.
  rewrite (get_parameter_loop_records _ _ _ Hall). simpl. fold records.
  destruct records as [|data rest] eqn:Hrecords; [reflexivity|].
  assert (dict_truthy data = true) as Hdata.
  { assert (data ∈ omap record_of devices) as Hin
      by (fold records; rewrite Hrecords; left).
    apply list_elem_of_omap in Hin as (device & _ & Hdevice).
    by apply (record_of_truthy device). }
  unfold any_dict. simpl. by rewrite Hdata.
Qed.

Lemma set_parameter_for_returned_or_caught device results l :
  set_passed device ->
  Services.set_parameter_for V SV name value results device l
  = match returned device with
    | Some r => (Ok ({[ r ]} ∪ results), l)
    | None => (Ok results, l ++ [not_found_record])
    end.
Proof.
  unfold Services.set_parameter_for, ServicesSpec.returned,
    try_except, bind, await, ret, modify, logger_exception.
  intros [[r Hr] | [Hc | Hc]].
  - by rewrite Hr.
  - by rewrite Hc.
  - by rewrite Hc.
Qed.

Lemma set_parameter_loop_results devices results l :
  Forall set_passed devices ->
  set_parameter_loop devices results l
  = (Ok (list_to_set (omap returned devices) ∪ results),
     l ++ replicate (length devices - length (omap returned devices))
            not_found_record).
Proof.
  intros Hall. revert results l.
  induction Hall as [|device devices Hd _ IH]; intros results l.
  - csimpl. rewrite app_nil_r.
    by rewrite (left_id_L ∅ (∪)).
  - cbn [Services.set_parameter_loop]. unfold bind at 1.
    rewrite (set_parameter_for_returned_or_caught _ _ _ Hd).
    pose proof (omap_length_le returned devices) as Hlen.
    csimpl. destruct (returned device) as [r|]; rewrite IH; csimpl.
    + by rewrite (assoc_L (∪)),
        (comm_L (∪) (list_to_set (omap returned devices)) {[ r ]}).
    + replace (S (length devices) - length (omap returned devices))%nat
        with (S (length devices - length (omap returned devices))) by lia.
      csimpl. by rewrite <- app_assoc.
Qed.

Lemma omap_Permutation {A B : Type} (f : A -> option B) (l1 l2 : list A) :
  l1 ≡ₚ l2 -> omap f l1 ≡ₚ omap f l2.
Proof.
  induction 1 as [|x l1 l2 _ IH|x y l|l1 l2 l3 _ IH1 _ IH2]; csimpl.
  - done.
  - destruct (f x); by rewrite IH.
  - destruct (f x), (f y); try done. apply perm_swap.
  - by rewrite IH1.
Qed.

(** X11. The selected devices form a set, visited in no particular order.
    When every device returns from [set] or raises what the service
    catches, the order does not matter: the service ends the same way and
    leaves the same log for any two orders of the same devices. *)
Theorem set_parameter_order_independent devices devices' l :
  Forall set_passed devices ->
  devices ≡ₚ devices' ->
  async_set_parameter_service devices l
  = async_set_parameter_service devices' l.
Proof.
  intros Hall Hperm.
  assert (Forall set_passed devices') as Hall' by (by rewrite <- Hperm).
  unfold Services.async_set_parameter_service, bind.
  rewrite (set_parameter_loop_results _ _ _ Hall),
    (set_parameter_loop_results _ _ _ Hall').
  pose proof (omap_Permutation returned _ _ Hperm) as Hreturned.
  rewrite <- (Permutation_length Hperm), <- (Permutation_length Hreturned).
  by rewrite (list_to_set_perm_L _ _ Hreturned).
Qed.

(** X12. A device whose [set] raises something else than the two caught
    exceptions ends [set_parameter] there: a [ValueError] as a
    [HomeAssistantError] with its message, anything else as it is. The log
    holds the records of the devices passed over before, and the devices
    that would have come after play no part in the outcome. *)
Theorem set_parameter_stops_at_failure before device after l (e : exn) :
  Forall set_passed before ->
  device_set device name value = Raise e ->
  e <> ParameterNotFoundError -> e <> TimeoutError ->
  async_set_parameter_service (before ++ device :: after) l
  = (Raise match e with
           | ValueError msg =>
               HomeAssistantError ("Couldn't set parameter: " +:+ msg)
           | _ => e
           end,
     l ++ replicate (length before - length (omap returned before))
            not_found_record).
Proof.
  intros Hall Hraise Hpnf Htimeout.
  assert (forall results l0,
            set_parameter_loop (before ++ device :: after) results l0
            = (Raise match e with
                     | ValueError msg =>
                         HomeAssistantError ("Couldn't set parameter: " +:+ msg)
                     | _ => e
                     end,
               l0 ++ replicate (length before - length (omap returned before))
                       not_found_record)) as Hloop.
  { clear l. induction Hall as [|d before Hd _ IH]; intros results l0.
    - cbn [app Services.set_parameter_loop]. unfold bind at 1.
      unfold Services.set_parameter_for, try_except, bind, await.
      rewrite Hraise. simpl. rewrite app_nil_r. by destruct e.
    - cbn [app Services.set_parameter_loop]. unfold bind at 1.
      rewrite (set_parameter_for_returned_or_caught _ _ _ Hd).
      pose proof (omap_length_le returned before) as Hlen.
      csimpl. destruct (returned d) as [r|]; rewrite IH; csimpl; [done|].
      replace (S (length before) - length (omap returned before))%nat
        with (S (length before - length (omap returned before))) by lia.
      csimpl. by rewrite <- app_assoc. }
  unfold Services.async_set_parameter_service, bind. by rewrite Hloop.
Qed.

(** X10. A device that gives the parameter but whose product is not known
    ends [get_parameter] with the [AttributeError] of reading [uid] on the
    default: the records collected before are not returned, and the
    devices after it are not asked. The log holds the records of the
    devices passed over before. *)
Theorem get_parameter_stops_at_unknown_product before device after l :
  Forall get_passed before ->
  get_retrieved device ->
  ~ product_known device ->
  async_get_parameter_service (before ++ device :: after) l
  = (Raise AttributeError,
     l ++ replicate (length before - length (omap record_of before))
            not_found_record).
Proof.
  intros Hall Hget Hproduct.
  assert (forall parameters l0,
            get_parameter_loop (before ++ device :: after) parameters l0
            = (Raise AttributeError,
               l0 ++ replicate
                       (length before - length (omap record_of before))
                       not_found_record)) as Hloop.
  { clear l. induction Hall as [|d before Hd _ IH]; intros parameters l0.
    - cbn [app Services.get_parameter_loop]. unfold bind at 1.
      rewrite (get_parameter_for_unknown_product V SV name _ _ _ Hget Hproduct).
      simpl. by rewrite app_nil_r.
    - cbn [app Services.get_parameter_loop]. unfold bind at 1.
      rewrite (get_parameter_for_record _ _ _ Hd).
      pose proof (omap_length_le record_of before) as Hlen.
      csimpl. destruct (record_of d) as [data|]; rewrite IH; csimpl; [done|].
      replace (S (length before) - length (omap record_of before))%nat
        with (S (length before - length (omap record_of before))) by lia.
      csimpl. by rewrite <- app_assoc. }
  unfold Services.async_get_parameter_service, bind. by rewrite Hloop.
Qed.
End ParameterServicesAsAWhole.

(** ** services.py: schedules of any length, and set followed by get *)

Section SchedulesAsAWhole.
Import Services ServicesSpec.

Section DictOrder.
Context {K V : Type} `{EqDecision K}.

Lemma dict_of_items_snoc (items : list (K * V)) (k : K) (v : V) :
  dict_of_items (items ++ [(k, v)]) = dict_set k v (dict_of_items items).
Proof. unfold dict_of_items. by rewrite fold_left_app. Qed.

(** Storing under a key that is present keeps the keys and their order. *)
Lemma dict_keys_set_present (d : dict K V) (k : K) (v : V) :
  k ∈ dict_keys d -> dict_keys (dict_set k v d) = dict_keys d.
Proof.
  unfold dict_keys. induction d as [|[k' v'] d IH]; simpl; intros Hk.
  - by apply elem_of_nil in Hk.
  - destruct (decide (k = k')) as [->|Hne]; [done|]. simpl. f_equal.
    apply IH. by apply elem_of_cons in Hk as [?|?].
Qed.

Lemma dict_keys_set_fresh (d : dict K V) (k : K) (v : V) :
  k ∉ dict_keys d -> dict_keys (dict_set k v d) = dict_keys d ++ [k].
Proof.
  intros Hk. rewrite (dict_set_fresh _ _ _ Hk).
  unfold dict_keys. by rewrite fmap_app.
Qed.
End DictOrder.

(** A day later the time of day is the same. *)
Lemma time_key_next_day (i : nat) : time_key (i + 48)%nat = time_key i.
Proof.
  unfold time_key, pyplumio_TIME_FORMAT, add_minutes. cbn [strftime].
  assert (30 * Z.of_nat (i + 48) = 30 * Z.of_nat i + 24 * 60) as -> by lia.
  unfold hour, minute. rewrite !Z.add_0_l.
  rewrite (Z.div_add (30 * Z.of_nat i) 24 60) by lia.
  rewrite (Z_mod_plus_full (30 * Z.of_nat i) 24 60).
  assert (((30 * Z.of_nat i) `div` 60 + 24) `mod` 24
          = ((30 * Z.of_nat i) `div` 60) `mod` 24) as ->; [|reflexivity].
  rewrite <- (Z_mod_plus_full ((30 * Z.of_nat i) `div` 60) 1 24).
  f_equal; lia.
Qed.

Lemma time_key_mod (i : nat) : time_key i = time_key (i `mod` 48)%nat.
Proof.
  induction (lt_wf i) as [i _ IH].
  destruct (decide (i < 48)%nat) as [Hlt|Hge].
  - by rewrite Nat.mod_small.
  - replace i with ((i - 48) + 48)%nat at 1 by lia.
    rewrite time_key_next_day, (IH (i - 48)%nat) by lia.
    f_equal. symmetry.
    replace i with ((i - 48) + 1 * 48)%nat at 1 by lia.
    apply Nat.Div0.mod_add.
Qed.

Lemma time_key_in_day (i : nat) : time_key i ∈ time_key <$> seq 0 48.
Proof.
  rewrite (time_key_mod i). apply list_elem_of_fmap.
  exists (i `mod` 48)%nat. split; [done|].
  apply elem_of_seq. pose proof (Nat.mod_upper_bound i 48). lia.
Qed.

(** Two intervals less than a day apart have different keys. *)
Lemma time_key_differs (i j : nat) :
  (i < j)%nat -> (j < i + 48)%nat -> time_key i <> time_key j.
Proof.
  intros Hij Hday Hkey.
  rewrite (time_key_mod i), (time_key_mod j) in Hkey.
  assert (NoDup (time_key <$> seq 0 48)) as Hnd
    by exact half_hour_keys_distinct.
  pose proof (Nat.mod_upper_bound i 48 ltac:(lia)) as Hi.
  pose proof (Nat.mod_upper_bound j 48 ltac:(lia)) as Hj.
  assert (i `mod` 48 = j `mod` 48)%nat as Hmod.
  { apply (NoDup_lookup _ _ _ (time_key (i `mod` 48)%nat) Hnd).
    - rewrite list_lookup_fmap, lookup_seq_lt by lia. done.
    - rewrite Hkey, list_lookup_fmap, lookup_seq_lt by lia. done. }
  pose proof (Nat.div_mod_eq i 48). pose proof (Nat.div_mod_eq j 48). lia.
Qed.

Lemma intervals_dict_snoc (intervals : list bool) (value : bool) :
  intervals_dict pyplumio_TIME_FORMAT 0 (intervals ++ [value])
  = dict_set (time_key (length intervals)) value
      (intervals_dict pyplumio_TIME_FORMAT 0 intervals).
Proof.
  unfold intervals_dict. rewrite imap_app. simpl.
  rewrite dict_of_items_snoc, Nat.add_0_r. reflexivity.
Qed.

(** The mapping of a day of any length: its keys are the times of day of
    the first 48 intervals at most, in order, and each interval that has
    no interval a day later is found under its key. *)
Lemma intervals_dict_any_length (intervals : list bool) :
  dict_keys (intervals_dict pyplumio_TIME_FORMAT 0 intervals)
  = time_key <$> seq 0 (length intervals `min` 48)
  /\ forall (i : nat) (v : bool),
       intervals !! i = Some v ->
       (length intervals <= i + 48)%nat ->
       dict_get (time_key i) (intervals_dict pyplumio_TIME_FORMAT 0 intervals)
       = Some v.
Proof.
  induction intervals as [|value intervals [IHkeys IHget]] using rev_ind.
  { split; [reflexivity|]. intros i v Hi. by rewrite lookup_nil in Hi. }
  rewrite intervals_dict_snoc, length_app. simpl.
  set (n := length intervals) in *.
  split.
  - destruct (decide (n < 48)%nat) as [Hlt|Hge].
    + rewrite dict_keys_set_fresh.
      * rewrite IHkeys.
        replace (n `min` 48)%nat with n by lia.
        replace ((n + 1) `min` 48)%nat with (S n) by lia.
        by rewrite seq_S, fmap_app.
      * rewrite IHkeys. replace (n `min` 48)%nat with n by lia.
        intros Hin. apply list_elem_of_fmap in Hin as (i & Hkey & Hi).
        apply elem_of_seq in Hi.
        apply (time_key_differs i n); [lia | lia | done].
    + rewrite dict_keys_set_present.
      * rewrite IHkeys. f_equal. f_equal. lia.
      * rewrite IHkeys. replace (n `min` 48)%nat with 48%nat by lia.
        apply time_key_in_day.
  - intros i v Hi Hlast.
    destruct (decide (i = n)) as [->|Hne].
    + rewrite list_lookup_middle in Hi by done. injection Hi as <-.
      apply dict_get_set_eq.
    + assert (i < n)%nat as Hlt.
      { apply lookup_lt_Some in Hi. rewrite length_app in Hi.
        simpl in Hi. fold n in Hi. lia. }
      rewrite lookup_app_l in Hi by done.
      rewrite dict_get_set_ne.
      * apply IHget; [done | lia].
      * intros Hkey. apply (time_key_differs i n); [lia | lia | done].
Qed.

(** X13. Whatever the length of the interval array of the selected
    weekday, the mapping [get_schedule] returns has the times of day of the
    first 48 intervals at most as its keys, half an hour apart from
    midnight on; an interval that is the last to fall on its time of day
    is the value found under that time. From the 49th interval on, an
    interval takes the place of the one a day before it. *)
Theorem get_schedule_any_length
    (schedule_type weekday : string) (c : Connection)
    (schedule : Schedule) (intervals : list bool) :
  dict_get schedule_type (get_nowait_schedules c) = Some schedule ->
  getattr_weekday schedule weekday = Ok intervals ->
  exists mapping : dict string bool,
    async_get_schedule_service pyplumio_START_OF_DAY pyplumio_TIME_FORMAT
      schedule_type weekday c
    = (Ok ("schedule", mapping), c)
    /\ dict_keys mapping = time_key <$> seq 0 (length intervals `min` 48)
    /\ forall (i : nat) (v : bool),
         intervals !! i = Some v ->
         (length intervals <= i + 48)%nat ->
         dict_get (time_key i) mapping = Some v.
Proof.
  intros Hget Hday.
  exists (intervals_dict pyplumio_TIME_FORMAT 0 intervals). split.
  - unfold Services.async_get_schedule_service, bind, gets, await, ret,
      dict_subscript.
    rewrite (dict_contains_true _ _ _ Hget), Hget, Hday. reflexivity.
  - apply intervals_dict_any_length.
Qed.

Lemma getattr_with_weekday_same
    (schedule : Schedule) (weekday : string) (day day' : list bool) :
  getattr_weekday schedule weekday = Ok day ->
  getattr_weekday (with_weekday schedule weekday day') weekday = Ok day'.
Proof.
  unfold getattr_weekday, with_weekday. simpl.
  repeat case_decide; try done; congruence.
Qed.

Lemma getattr_with_weekday_other
    (schedule : Schedule) (weekday other : string) (day' : list bool) :
  other <> weekday ->
  getattr_weekday (with_weekday schedule weekday day') other
  = getattr_weekday schedule other.
Proof.
  intros Hother. unfold getattr_weekday, with_weekday. simpl.
  repeat case_decide; try done; congruence.
Qed.

Section SetThenGet.
Variables STATE_ON STATE_OFF START_OF_DAY TIME_FORMAT : string.
Variable set_state :
  list bool -> string -> string -> string -> result unit * list bool.

Notation "'async_set_schedule_service'" :=
  (Services.async_set_schedule_service STATE_ON STATE_OFF set_state)
  (only parsing).
Notation "'async_get_schedule_service'" :=
  (Services.async_get_schedule_service START_OF_DAY TIME_FORMAT)
  (only parsing).

Lemma get_schedule_run (schedule_type weekday : string) (c : Connection) :
  async_get_schedule_service schedule_type weekday c
  = (match dict_get schedule_type (get_nowait_schedules c) with
     | Some schedule =>
         match getattr_weekday schedule weekday with
         | Ok schedule_day =>
             match strptime START_OF_DAY TIME_FORMAT with
             | Ok start_of_day_dt =>
                 Ok ("schedule",
                     intervals_dict TIME_FORMAT start_of_day_dt schedule_day)
             | Raise e => Raise e
             end
         | Raise e => Raise e
         end
     | None =>
         Raise (HomeAssistantError
                  (schedule_type
                   +:+ " schedule is not supported by the device, check logs for more info"))
     end, c).
Proof using Type.
  unfold Services.async_get_schedule_service, bind, gets, await, ret, raise,
    dict_subscript, dict_contains.
  destruct (dict_get schedule_type (get_nowait_schedules c)); [|done].
  destruct (getattr_weekday _ weekday); [|done].
  by destruct (strptime START_OF_DAY TIME_FORMAT).
Qed.

(** X14. After a [set_schedule] that succeeds, the schedule sent to the
    device is the selected one with the selected weekday as [set_state]
    left it; a [get_schedule] of that type and weekday then shows that
    day, and a [get_schedule] of another weekday or of another schedule
    type shows what it showed before. *)
Theorem set_schedule_then_get
    (schedule_type weekday start_time end_time : string) (state : bool)
    (c : Connection) (schedules : dict string Schedule)
    (schedule : Schedule) (schedule_day day' : list bool) :
  data_schedules c = Some schedules ->
  dict_get schedule_type schedules = Some schedule ->
  getattr_weekday schedule weekday = Ok schedule_day ->
  set_state schedule_day (if state then STATE_ON else STATE_OFF)
    (drop_last3 start_time) (drop_last3 end_time) = (Ok tt, day') ->
  exists c' : Connection,
    async_set_schedule_service schedule_type weekday state
      start_time end_time c = (Ok tt, c')
    /\ committed c'
       = committed c
         ++ [(schedule_type, with_weekday schedule weekday day')]
    /\ (async_get_schedule_service schedule_type weekday c').1
       = match strptime START_OF_DAY TIME_FORMAT with
         | Ok start_of_day_dt =>
             Ok ("schedule", intervals_dict TIME_FORMAT start_of_day_dt day')
         | Raise e => Raise e
         end
    /\ (forall other : string,
          other <> weekday ->
          (async_get_schedule_service schedule_type other c').1
          = (async_get_schedule_service schedule_type other c).1)
    /\ (forall other_type other : string,
          other_type <> schedule_type ->
          (async_get_schedule_service other_type other c').1
          = (async_get_schedule_service other_type other c).1).
Proof using Type.
  intros Hdata Hget Hday Hset.
  exists {| data_schedules :=
              Some (dict_set schedule_type
                      (with_weekday schedule weekday day') schedules);
            committed :=
              committed c
              ++ [(schedule_type, with_weekday schedule weekday day')] |}.
  split.
  { unfold Services.async_set_schedule_service, bind, gets, await,
      try_except, call_set_state, raise, dict_subscript, commit,
      get_nowait_schedules.
    rewrite Hdata, (dict_contains_true _ _ _ Hget), Hget, Hday, Hset.
    unfold store_weekday. rewrite Hdata, Hget. simpl.
    by rewrite dict_get_set_eq. }
  split; [reflexivity|].
  rewrite !get_schedule_run. unfold get_nowait_schedules.
  cbn [fst data_schedules]. split; [|split].
  - rewrite dict_get_set_eq.
    by rewrite (getattr_with_weekday_same _ _ _ _ Hday).
  - intros other Hother. rewrite !get_schedule_run.
    unfold get_nowait_schedules. cbn [fst data_schedules].
    rewrite Hdata, dict_get_set_eq, Hget.
    by rewrite getattr_with_weekday_other.
  - intros other_type other Hother. rewrite !get_schedule_run.
    unfold get_nowait_schedules. cbn [fst data_schedules].
    by rewrite Hdata, dict_get_set_ne by done.
Qed.
End SetThenGet.
End SchedulesAsAWhole.

(** ** services.py: the devices a service call selects *)

Section StringFacts.
Import Extraction.

Lemma prefix_app (needle rest : string) :
  String.prefix needle (needle +:+ rest) = true.
Proof.
  induction needle as [|c needle IH]; simpl; [by destruct rest|].
  destruct (Ascii.ascii_dec c c); [exact IH | done].
Qed.

Lemma contains_app (before needle rest : string) :
  contains needle (before +:+ needle +:+ rest) = true.
Proof.
  induction before as [|c before IH].
  - pose proof (prefix_app needle rest) as Hprefix.
    change ("" +:+ needle +:+ rest) with (needle +:+ rest).
    destruct (needle +:+ rest); cbn [contains]; by rewrite Hprefix.
  - simpl. rewrite IH. apply orb_true_r.
Qed.

Lemma split_never_empty (sep : ascii) (maxsplit : nat) (s : string) :
  split sep maxsplit s <> [].
Proof.
  revert maxsplit. induction s as [|c s IH]; intros maxsplit; simpl; [done|].
  case_decide; [by destruct maxsplit|].
  by destruct (split sep maxsplit s).
Qed.

(** Text without the separator is one part. *)
Lemma split_without_separator (sep : ascii) (maxsplit : nat) (s : string) :
  occurs sep s = false -> split sep maxsplit s = [s].
Proof.
  induction s as [|c s IH]; simpl; [done|].
  intros Hs. apply orb_false_iff in Hs as [Hc Hs].
  apply bool_decide_eq_false in Hc.
  rewrite decide_False by congruence. by rewrite IH.
Qed.

(** The first cut is at the first separator. *)
Lemma split_at_separator
    (sep : ascii) (maxsplit : nat) (first rest : string) :
  occurs sep first = false ->
  split sep (S maxsplit) (first +:+ String sep rest)
  = first :: split sep maxsplit rest.
Proof.
  induction first as [|c first IH]; simpl.
  - intros _. by rewrite decide_True.
  - intros Hs. apply orb_false_iff in Hs as [Hc Hs].
    apply bool_decide_eq_false in Hc.
    rewrite decide_False by congruence. by rewrite IH.
Qed.

(** The index of a mixer is what follows the last hyphen of its
    identifier, as long as neither the controller part nor the index holds
    a hyphen. *)
Lemma mixer_identifier_index (uid suffix : string) :
  occurs "-" uid = false -> occurs "-" suffix = false ->
  pop (split "-" 3 (uid +:+ "-mixer-" +:+ suffix)) = suffix.
Proof.
  intros Huid Hsuffix.
  change (uid +:+ "-mixer-" +:+ suffix)
    with (uid +:+ String "-" ("mixer" +:+ String "-" suffix)).
  rewrite (split_at_separator "-" 2 uid) by done.
  rewrite (split_at_separator "-" 1 "mixer") by done.
  by rewrite split_without_separator.
Qed.
End StringFacts.

Section ExtractionProperties.
Import Extraction.
Variable device_registry : dict string DeviceEntry.
Variable entity_registry : dict string RegistryEntry.
Variable MixerDevice : Type.
Variable mixers : dict Z MixerDevice.
Variable py_int : string -> result Z.

Notation "'async_extract_target_device'" :=
  (Extraction.async_extract_target_device device_registry MixerDevice mixers
     py_int) (only parsing).
Notation "'extract_loop'" :=
  (Extraction.extract_loop device_registry entity_registry MixerDevice mixers
     py_int) (only parsing).
Notation "'async_extract_referenced_devices'" :=
  (Extraction.async_extract_referenced_devices device_registry
     entity_registry MixerDevice mixers py_int) (only parsing).
Notation "'target_of'" :=
  (Extraction.target_of device_registry entity_registry MixerDevice mixers
     py_int).

(** X15. [async_extract_target_device] never returns a mixer the
    controller does not have: a mixer it returns is stored under its index
    in the mixers of the controller, and its identifier holds "-mixer-".
    A device id that the device registry does not know, or no device id at
    all, raises the [HomeAssistantError] that names it. *)
Theorem extract_target_outcomes (device_id : option string) :
  (forall index : Z,
     async_extract_target_device device_id = Returned (Mixer index) ->
     is_Some (dict_get index mixers)
     /\ exists (device : DeviceEntry) (domain identifier : string)
          (others : list (string * string)),
          dr_async_get device_registry device_id = Some device
          /\ identifiers device = (domain, identifier) :: others
          /\ contains "-mixer-" identifier = true)
  /\ (dr_async_get device_registry device_id = None ->
      async_extract_target_device device_id
      = Raised (Exn (HomeAssistantError
                       ("Selected device '" +:+ format_id device_id
                        +:+ "' was not found, please try again")))).
Proof using Type.
  unfold Extraction.async_extract_target_device. split.
  - intros index.
    destruct (dr_async_get device_registry device_id) as [device|];
      [|discriminate].
    destruct (identifiers device) as [|[domain identifier] others] eqn:Hids;
      [discriminate|].
    destruct (contains "-mixer-" identifier) eqn:Hmixer; [|discriminate].
    destruct (py_int _) as [i|e]; [|discriminate].
    unfold dict_contains.
    destruct (dict_get i mixers) as [m|] eqn:Hi; [|discriminate].
    intros [= <-]. split; [by rewrite Hi|].
    by exists device, domain, identifier, others.
  - by intros ->.
Qed.

(** X16. A device whose first identifier is a controller identifier
    followed by "-mixer-" and an index, neither of them with a hyphen in
    it, stands for the mixer of that index when the controller has it, and
    for the controller when it has not; when [int] refuses the index, its
    exception leaves the function. *)
Theorem extract_target_mixer
    (id uid suffix domain : string) (device : DeviceEntry)
    (others : list (string * string)) :
  dict_get id device_registry = Some device ->
  identifiers device = (domain, uid +:+ "-mixer-" +:+ suffix) :: others ->
  occurs "-" uid = false ->
  occurs "-" suffix = false ->
  async_extract_target_device (Some id)
  = match py_int suffix with
    | Ok index =>
        Returned (if dict_contains index mixers then Mixer index
                  else Controller)
    | Raise e => Raised (Exn e)
    end.
Proof using Type.
  intros Hdevice Hids Huid Hsuffix.
  unfold Extraction.async_extract_target_device. simpl.
  rewrite Hdevice, Hids, contains_app, mixer_identifier_index by done.
  destruct (py_int suffix) as [index|e]; [|done].
  by destruct (dict_contains index mixers).
Qed.

(** Every device id dealt with so far was found, and its device is among
    the devices collected. *)
Notation "'collected'" :=
  (fun (devices : gset target) (extracted : gset (option string)) =>
     forall device_id : option string,
       device_id ∈ extracted ->
       exists device : target,
         async_extract_target_device device_id = Returned device
         /\ device ∈ devices)
  (only parsing).

Lemma target_of_Some (entity_id : string) (device : target) :
  target_of entity_id = Some device ->
  exists entity : RegistryEntry,
    dict_get entity_id entity_registry = Some entity
    /\ async_extract_target_device (Extraction.device_id entity)
       = Returned device.
Proof using Type.
  unfold Extraction.target_of.
  destruct (dict_get entity_id entity_registry) as [entity|]; [|done].
  destruct (async_extract_target_device (Extraction.device_id entity))
    as [t|r] eqn:Ht; [|done].
  intros [= <-]. by exists entity.
Qed.

(** One turn of the loop on an entity whose device is found: the device
    joins the devices collected, whether its id was met before or not. *)
Lemma extract_loop_step
    (entity_id : string) (device : target)
    (devices : gset target) (extracted : gset (option string)) :
  target_of entity_id = Some device ->
  collected devices extracted ->
  exists extracted' : gset (option string),
    (forall referenced : list string,
       extract_loop (entity_id :: referenced) devices extracted
       = extract_loop referenced ({[ device ]} ∪ devices) extracted')
    /\ collected ({[ device ]} ∪ devices) extracted'.
Proof using Type.
  intros Htarget Hcollected.
  destruct (target_of_Some _ _ Htarget) as (entity & Hentity & Hdevice).
  destruct (decide (Extraction.device_id entity ∈ extracted)) as [Hin|Hnew].
  - destruct (Hcollected _ Hin) as (device' & Hdevice' & Hmember).
    rewrite Hdevice in Hdevice'. injection Hdevice' as <-.
    assert ({[ device ]} ∪ devices = devices) as ->.
    { apply set_eq. intros t. rewrite elem_of_union, elem_of_singleton.
      split; [intros [->|?]; done | tauto]. }
    exists extracted. split; [|done].
    intros referenced. cbn [Extraction.extract_loop].
    by rewrite Hentity, decide_True.
  - exists ({[ Extraction.device_id entity ]} ∪ extracted). split.
    + intros referenced. cbn [Extraction.extract_loop].
      by rewrite Hentity, decide_False, Hdevice.
    + intros id Hid. apply elem_of_union in Hid as [Hid|Hid].
      * apply elem_of_singleton in Hid as ->. exists device.
        split; [done|]. apply elem_of_union_l. by apply elem_of_singleton.
      * destruct (Hcollected _ Hid) as (t & Ht & Hmember).
        exists t. split; [done|]. by apply elem_of_union_r.
Qed.

Lemma extract_loop_prefix
    (before : list string) (devices : gset target)
    (extracted : gset (option string)) :
  Forall (fun entity_id => is_Some (target_of entity_id)) before ->
  collected devices extracted ->
  exists extracted' : gset (option string),
    (forall rest : list string,
       extract_loop (before ++ rest) devices extracted
       = extract_loop rest
           (list_to_set (omap target_of before) ∪ devices) extracted')
    /\ collected (list_to_set (omap target_of before) ∪ devices) extracted'.
Proof using Type.
  intros Hall. revert devices extracted.
  induction Hall as [|entity_id before [device Htarget] _ IH];
    intros devices extracted Hcollected.
  - exists extracted. csimpl. by rewrite (left_id_L ∅ (∪)).
  - destruct (extract_loop_step entity_id device devices extracted
                Htarget Hcollected) as (e1 & Hstep & Hc1).
    destruct (IH _ e1 Hc1) as (e2 & Hrest & Hc2).
    assert (list_to_set (omap target_of (entity_id :: before)) ∪ devices
            = list_to_set (omap target_of before) ∪ ({[ device ]} ∪ devices))
      as ->.
    { csimpl. rewrite Htarget. csimpl.
      by rewrite (assoc_L (∪)),
        (comm_L (∪) (list_to_set (omap target_of before)) {[ device ]}). }
    exists e2. split; [|done].
    intros rest. by rewrite <- app_comm_cons, Hstep, Hrest.
Qed.

(** X17. When every referenced entity is registered and its device is
    found, [async_extract_referenced_devices] returns the devices the
    entities stand for, each once: passing over the device ids met before
    loses no device. The result does not depend on the order in which the
    entity ids come. *)
Theorem extract_referenced_devices_all (referenced : list string) :
  Forall (fun entity_id => is_Some (target_of entity_id)) referenced ->
  async_extract_referenced_devices referenced
  = Returned (list_to_set (omap target_of referenced))
  /\ forall referenced' : list string,
       referenced ≡ₚ referenced' ->
       async_extract_referenced_devices referenced'
       = async_extract_referenced_devices referenced.
Proof using Type.
  assert (forall l : list string,
            Forall (fun entity_id => is_Some (target_of entity_id)) l ->
            async_extract_referenced_devices l
            = Returned (list_to_set (omap target_of l))) as Hall.
  { intros l Hl. unfold Extraction.async_extract_referenced_devices.
    destruct (extract_loop_prefix l ∅ ∅ Hl) as (extracted' & Hrun & _).
    { intros id Hid. by apply elem_of_empty in Hid. }
    specialize (Hrun []). rewrite app_nil_r in Hrun. rewrite Hrun.
    simpl. by rewrite (right_id_L ∅ (∪)). }
  intros Hreferenced. split; [by apply Hall|].
  intros referenced' Hperm.
  rewrite !Hall; [|done|by rewrite <- Hperm].
  by rewrite (list_to_set_perm_L _ _ (omap_Permutation _ _ _ Hperm)).
Qed.

(** X18. The first referenced entity that fails ends the extraction. An
    entity the entity registry does not know raises [AttributeError]; an
    entity whose device is not found raises what
    [async_extract_target_device] raises, which for an entity without a
    device is the [HomeAssistantError] about the device 'None'. What comes
    after that entity plays no part. *)
Theorem extract_referenced_devices_failure
    (before after : list string) (entity_id : string) (r : raised) :
  Forall (fun entity_id => is_Some (target_of entity_id)) before ->
  match dict_get entity_id entity_registry with
  | None => r = Exn AttributeError
  | Some entity =>
      async_extract_target_device (Extraction.device_id entity) = Raised r
  end ->
  async_extract_referenced_devices (before ++ entity_id :: after) = Raised r.
Proof using Type.
  intros Hbefore Hfails.
  unfold Extraction.async_extract_referenced_devices.
  destruct (extract_loop_prefix before ∅ ∅ Hbefore)
    as (extracted' & Hrun & Hcollected).
  { intros id Hid. by apply elem_of_empty in Hid. }
  rewrite Hrun. cbn [Extraction.extract_loop].
  destruct (dict_get entity_id entity_registry) as [entity|];
    [|by rewrite Hfails].
  destruct (decide (Extraction.device_id entity ∈ extracted')) as [Hin|Hnew].
  - destruct (Hcollected _ Hin) as (device & Hdevice & _). congruence.
  - by rewrite Hfails.
Qed.
End ExtractionProperties.

(** ** The further properties on the sample devices *)

Lemma update_preset_mode_retargets_witness :
  Climate.async_update_preset_mode Z Z.eqb Ok sample_thermostat
    (Climate.ModeInt Z 5) sample_world
  = (Ok tt,
     ClimateEntity.written Z
       (ClimateEntity.retarget Z "party_target_temp"
          {| Climate.value := 18; Climate.min_value := 10;
             Climate.max_value := 35 |}
          (Climate.set_preset_mode Z "party" sample_world))).
Proof.
  apply (update_preset_mode_retargets Z Z.eqb Ok sample_thermostat
           5 "party" "party_target_temp");
    [reflexivity | reflexivity | right; reflexivity].
Defined.

Lemma update_preset_mode_device_failure_witness :
  Climate.async_update_preset_mode Z Z.eqb Ok silent_thermostat
    (Climate.ModeInt Z 2) sample_world
  = (Raise TimeoutError, Climate.set_preset_mode Z "comfort" sample_world).
Proof.
  apply (update_preset_mode_device_failure Z Z.eqb Ok silent_thermostat
           2 "comfort" "day_target_temp" TimeoutError sample_world);
    [reflexivity | reflexivity | discriminate | reflexivity].
Defined.

Lemma update_preset_mode_schedule_witness :
  Climate.async_update_preset_mode Z Z.eqb Ok sample_thermostat
    (Climate.ModeInt Z 0) sample_world
  = (Ok tt,
     ClimateEntity.written Z
       (ClimateEntity.retarget Z "day_target_temp"
          {| Climate.value := 21; Climate.min_value := 10;
             Climate.max_value := 35 |}
          schedule_world)).
Proof.
  apply (update_preset_mode_schedule Z Z.eqb Ok sample_thermostat 21
           {| Climate.value := 21; Climate.min_value := 10;
              Climate.max_value := 35 |}
           {| Climate.value := 18; Climate.min_value := 10;
              Climate.max_value := 35 |}
           sample_world); reflexivity.
Defined.

Lemma update_preset_mode_keeps_bounds_witness :
  ClimateEntity.bounds_belong_to_target Z sample_thermostat
    (Climate.async_update_preset_mode Z Z.eqb Ok sample_thermostat
       (Climate.ModeInt Z 0) sample_world).2.
Proof.
  apply (update_preset_mode_keeps_bounds Z Z.eqb Ok sample_thermostat
           (Climate.ModeInt Z 0) sample_world).
  split.
  - exists "eco". reflexivity.
  - exists {| Climate.value := 18; Climate.min_value := 10;
              Climate.max_value := 35 |}.
    repeat split; reflexivity.
Defined.


Lemma set_preset_mode_unknown_name_witness :
  ClimateEntity.async_set_preset_mode Z Z.eqb sample_thermostat "mode"
    "boost" sample_entity
  = (Raise KeyError, sample_entity).
Proof.
  apply (set_preset_mode_unknown_name Z Z.eqb sample_thermostat "mode"
           "boost" sample_entity).
  unfold Climate.CLIMATE_MODES.
  repeat (apply not_elem_of_cons; split; [discriminate|]).
  apply not_elem_of_nil.
Defined.

Lemma set_preset_mode_sends_code_witness :
  let sent :=
    ClimateEntity.with_call Z "mode" (ClimateEntity.SentInt 5) sample_entity
  in
  dict_get 5 Climate.EM_TO_HA_MODE = Some "party"
  /\ ClimateEntity.async_set_preset_mode Z Z.eqb sample_thermostat "mode"
       "party" sample_entity
     = ClimateEntity.zoom Z
         (Climate.async_update_preset_mode Z Z.eqb Ok sample_thermostat
            (Climate.ModeInt Z 5)) sent
  /\ ClimateEntity.set_nowait_calls Z
       (ClimateEntity.async_set_preset_mode Z Z.eqb sample_thermostat "mode"
          "party" sample_entity).2
     = ClimateEntity.set_nowait_calls Z sample_entity
       ++ [("mode", ClimateEntity.SentInt 5)].
Proof.
  apply (set_preset_mode_sends_code Z Z.eqb Ok sample_thermostat "mode"
           "party" 5 sample_entity).
  reflexivity.
Defined.

Lemma pushed_target_temperature_in_schedule_mode_witness :
  ClimateEntity.async_update_target_temperature Z Z.eqb sample_thermostat
    18 schedule_entity
  = (Ok tt,
     ClimateEntity.with_world Z
       (ClimateEntity.written Z schedule_world)
       (ClimateEntity.set_target_temperature Z 18 schedule_entity)).
Proof.
  apply (pushed_target_temperature_in_schedule_mode Z Z.eqb sample_thermostat
           18
           {| Climate.value := 21; Climate.min_value := 10;
              Climate.max_value := 35 |}
           {| Climate.value := 18; Climate.min_value := 10;
              Climate.max_value := 35 |}
           schedule_entity); reflexivity.
Defined.

Lemma get_parameter_returns_records_witness :
  Services.async_get_parameter_service Z Z "heating_target_temp"
    [mixer; ecomax] []
  = (Ok ("parameters",
         omap (ServicesSpec.record_of Z Z "heating_target_temp")
           [mixer; ecomax]),
     [LogRecord EXCEPTION "Requested parameter %s not found"
        [ArgStr "heating_target_temp"]]).
Proof.
  apply (get_parameter_returns_records Z Z "heating_target_temp"
           [mixer; ecomax] []).
  constructor; [left; right; reflexivity|].
  constructor; [|constructor].
  right. split.
  - exists sample_parameter. reflexivity.
  - exists {| Services.uid := "D251PAKR3GCPZ1K8G05G0" |}. reflexivity.
Defined.

Lemma set_parameter_order_independent_witness :
  Services.async_set_parameter_service Z Z "heating_target_temp" 60
    [mixer; ecomax] []
  = Services.async_set_parameter_service Z Z "heating_target_temp" 60
      [ecomax; mixer] [].
Proof.
  apply (set_parameter_order_independent Z Z "heating_target_temp" 60
           [mixer; ecomax] [ecomax; mixer] []).
  - constructor; [right; right; reflexivity|].
    constructor; [left; exists true; reflexivity | constructor].
  - apply perm_swap.
Defined.

Lemma set_parameter_stops_at_failure_witness :
  Services.async_set_parameter_service Z Z "heating_target_temp" 999
    ([mixer] ++ strict_ecomax :: [ecomax]) []
  = (Raise (HomeAssistantError
              "Couldn't set parameter: Value is out of range"),
     [LogRecord EXCEPTION "Requested parameter %s not found"
        [ArgStr "heating_target_temp"]]).
Proof.
  apply (set_parameter_stops_at_failure Z Z "heating_target_temp" 999
           [mixer] strict_ecomax [ecomax] []
           (ValueError "Value is out of range")).
  - constructor; [right; right; reflexivity | constructor].
  - reflexivity.
  - discriminate.
  - discriminate.
Defined.

Lemma get_schedule_any_length_witness :
  exists mapping : dict string bool,
    Services.async_get_schedule_service
      Services.pyplumio_START_OF_DAY Services.pyplumio_TIME_FORMAT
      "heating" "monday" long_connection
    = (Ok ("schedule", mapping), long_connection)
    /\ dict_keys mapping
       = ServicesSpec.time_key <$> seq 0 (length long_monday `min` 48)
    /\ forall (i : nat) (v : bool),
         long_monday !! i = Some v ->
         (length long_monday <= i + 48)%nat ->
         dict_get (ServicesSpec.time_key i) mapping = Some v.
Proof.
  apply (get_schedule_any_length "heating" "monday" long_connection
           (Services.with_weekday week_off "monday" long_monday)
           long_monday); reflexivity.
Defined.

Lemma set_schedule_then_get_witness :
  let day' := (sample_set_state day_off "on" "06:00" "22:00").2 in
  exists c' : Services.Connection,
    Services.async_set_schedule_service "on" "off" sample_set_state
      "heating" "monday" true "06:00:00" "22:00:00" sample_connection
    = (Ok tt, c')
    /\ Services.committed c'
       = [("heating", Services.with_weekday week_off "monday" day')]
    /\ (Services.async_get_schedule_service
          Services.pyplumio_START_OF_DAY Services.pyplumio_TIME_FORMAT
          "heating" "monday" c').1
       = Ok ("schedule",
             Services.intervals_dict Services.pyplumio_TIME_FORMAT 0 day')
    /\ (forall other : string,
          other <> "monday" ->
          (Services.async_get_schedule_service
             Services.pyplumio_START_OF_DAY Services.pyplumio_TIME_FORMAT
             "heating" other c').1
          = (Services.async_get_schedule_service
               Services.pyplumio_START_OF_DAY Services.pyplumio_TIME_FORMAT
               "heating" other sample_connection).1)
    /\ (forall other_type other : string,
          other_type <> "heating" ->
          (Services.async_get_schedule_service
             Services.pyplumio_START_OF_DAY Services.pyplumio_TIME_FORMAT
             other_type other c').1
          = (Services.async_get_schedule_service
               Services.pyplumio_START_OF_DAY Services.pyplumio_TIME_FORMAT
               other_type other sample_connection).1).
Proof.
  intros day'.
  apply (set_schedule_then_get "on" "off"
           Services.pyplumio_START_OF_DAY Services.pyplumio_TIME_FORMAT
           sample_set_state
           "heating" "monday" "06:00:00" "22:00:00" true
           sample_connection [("heating", week_off)] week_off day_off day');
    reflexivity.
Defined.

Lemma extract_target_outcomes_witness :
  is_Some (dict_get 0 sample_mixers)
  /\ Extraction.async_extract_target_device sample_device_registry unit
       sample_mixers sample_int None
     = Extraction.Raised
         (Extraction.Exn
            (HomeAssistantError
               "Selected device 'None' was not found, please try again")).
Proof.
  destruct (extract_target_outcomes sample_device_registry unit
              sample_mixers sample_int (Some "b2")) as [Hmixer _].
  destruct (extract_target_outcomes sample_device_registry unit
              sample_mixers sample_int None) as [_ Hnone].
  split.
  - apply (Hmixer 0). reflexivity.
  - apply Hnone. reflexivity.
Defined.

Lemma extract_target_mixer_witness :
  Extraction.async_extract_target_device sample_device_registry unit
    sample_mixers sample_int (Some "c3")
  = Extraction.Returned Extraction.Controller.
Proof.
  apply (extract_target_mixer sample_device_registry unit sample_mixers
           sample_int "c3" "D251PAKR3GCPZ1K8G05G0" "5" "plum_ecomax"
           {| Extraction.identifiers :=
                [("plum_ecomax", "D251PAKR3GCPZ1K8G05G0-mixer-5")] |} []);
    reflexivity.
Defined.

Lemma extract_referenced_devices_all_witness :
  let referenced :=
    ["sensor.mixer_temp"; "sensor.heating_temp"; "number.mixer_target_temp"]
  in
  Extraction.async_extract_referenced_devices sample_device_registry
    sample_entity_registry unit sample_mixers sample_int referenced
  = Extraction.Returned
      (list_to_set
         (omap (Extraction.target_of sample_device_registry
                  sample_entity_registry unit sample_mixers sample_int)
            referenced)).
Proof.
  intros referenced.
  refine (proj1 (extract_referenced_devices_all sample_device_registry
                   sample_entity_registry unit sample_mixers sample_int
                   referenced _)).
  constructor; [eexists; reflexivity|].
  constructor; [eexists; reflexivity|].
  constructor; [eexists; reflexivity|].
  constructor.
Defined.

Lemma extract_referenced_devices_failure_witness :
  Extraction.async_extract_referenced_devices sample_device_registry
    sample_entity_registry unit sample_mixers sample_int
    (["sensor.mixer_temp"] ++ "sensor.helper" :: ["sensor.heating_temp"])
  = Extraction.Raised
      (Extraction.Exn
         (HomeAssistantError
            "Selected device 'None' was not found, please try again")).
Proof.
  apply (extract_referenced_devices_failure sample_device_registry
           sample_entity_registry unit sample_mixers sample_int
           ["sensor.mixer_temp"] ["sensor.heating_temp"] "sensor.helper").
  - repeat constructor. eexists. reflexivity.
  - reflexivity.
Defined.

Lemma get_parameter_stops_at_unknown_product_witness :
  Services.async_get_parameter_service Z Z "heating_target_temp"
    ([mixer; ecomax] ++ ecomax_without_product :: [ecomax]) []
  = (Raise AttributeError,
     [LogRecord EXCEPTION "Requested parameter %s not found"
        [ArgStr "heating_target_temp"]]).
Proof.
  apply (get_parameter_stops_at_unknown_product Z Z "heating_target_temp"
           [mixer; ecomax] ecomax_without_product [ecomax] []).
  - constructor; [left; right; reflexivity|].
    constructor; [|constructor].
    right. split.
    + exists sample_parameter. reflexivity.
    + exists {| Services.uid := "D251PAKR3GCPZ1K8G05G0" |}. reflexivity.
  - exists sample_parameter. reflexivity.
  - intros [p Hp]. discriminate Hp.
Defined.
